(** * Auto_3: layout-tolerant extraction and tiered price resolution

    A shallow embedding of [excel_utils.py], [level1_build_db.py],
    [level3_match_prices.py] and the override step of
    [level4_generate_estimate.py], and the properties of the
    specification stated over it.

    Python [str] values are sequences of Unicode code points; [float]
    is IEEE 754 binary64; a call that may raise returns a [result]; the
    [estimate_items] table is the list of its rows in insertion order.
    What the program takes from the Python runtime and from SQLite
    (Unicode tables, number formatting, the order of rows that compare
    equal under ORDER BY) is an interface, and the theorems hold for
    every implementation of it. *)

From Stdlib Require Import ZArith NArith Floats Sorting.Sorted.
From Stdlib Require DecimalString.
From stdpp Require Import base option list strings gmap.

Set Default Proof Using "Type".

(** ** Text *)

Abbreviation char := N.
Abbreviation str := (list char).

(** Code-point order, which is also the order of SQLite's BINARY
    collation on UTF-8 text. *)
Fixpoint str_leb (a b : str) : bool :=
  match a, b with
  | [], _ => true
  | _ :: _, [] => false
  | x :: a', y :: b' =>
      if (x <? y)%N then true
      else if (y <? x)%N then false
      else str_leb a' b'
  end.

(** [s.endswith(suffix)] *)
Definition endswith (s suffix : str) : bool :=
  bool_decide (drop (length s - length suffix) s = suffix).

(** Truthiness of a Python [str]. *)
Definition truthy (s : str) : bool :=
  match s with [] => false | _ :: _ => true end.

(** The Python runtime, as far as the program calls it. *)
Class Runtime := {
  (** [unicodedata.normalize("NFC", text)] *)
  nfc : str -> str;
  (** whitespace in the sense of [str.split()] and [str.strip()] *)
  isspace : char -> bool;
  (** [str.upper] *)
  upper : str -> str;
  (** [str(x)] for a float *)
  float_repr : float -> str;
  (** [float(text)]; [None] stands for [ValueError] *)
  float_of_str : str -> option float;
}.

Section Text.
Context `{Runtime}.

(** ["".join(text.split())] *)
Definition remove_whitespace (text : str) : str :=
  filter (λ c, isspace c = false) text.

(** [text.lstrip()] *)
Fixpoint lstrip (text : str) : str :=
  match text with
  | c :: rest => if isspace c then lstrip rest else text
  | [] => []
  end.

(** [text.strip()] *)
Definition strip (text : str) : str :=
  reverse (lstrip (reverse (lstrip text))).
End Text.

(** String literals of the source are written in UTF-8 and decoded to
    code points. *)
Fixpoint utf8_decode (bytes : list N) : str :=
  match bytes with
  | [] => []
  | b0 :: r0 =>
      if (b0 <? 0x80)%N then b0 :: utf8_decode r0
      else
        match r0 with
        | [] => []
        | b1 :: r1 =>
            if (b0 <? 0xE0)%N
            then ((b0 mod 0x20) * 0x40 + b1 mod 0x40)%N :: utf8_decode r1
            else
              match r1 with
              | [] => []
              | b2 :: r2 =>
                  if (b0 <? 0xF0)%N
                  then ((b0 mod 0x10) * 0x1000 + (b1 mod 0x40) * 0x40
                        + b2 mod 0x40)%N :: utf8_decode r2
                  else
                    match r2 with
                    | [] => []
                    | b3 :: r3 =>
                        ((b0 mod 0x8) * 0x40000 + (b1 mod 0x40) * 0x1000
                         + (b2 mod 0x40) * 0x40 + b3 mod 0x40)%N
                        :: utf8_decode r3
                    end
              end
        end
  end.

Definition utf8 (s : string) : str :=
  utf8_decode (map Ascii.N_of_ascii (String.list_ascii_of_string s)).
Arguments utf8 s%_string.

(** [str(n)] for an [int].  CPython's limit on the digits of an integer
    converted to or from text (4300 unless configured otherwise) binds
    the reader of the workbook as it binds [str], so that a cell never
    holds an integer that [str] refuses. *)
Definition int_repr (n : Z) : str :=
  utf8 (DecimalString.NilZero.string_of_int (Z.to_int n)).

(** ** Exceptions *)

(** The exceptions that the embedded functions can raise, and the
    outcome of a call that may raise: its value, or the exception that
    leaves it. *)
Inductive exn := KeyError | IndexError | OverflowError | OSError.

Inductive result (A : Type) :=
| Ok (a : A)
| Raise (e : exn).
Arguments Ok {A} a.
Arguments Raise {A} e.

#[global] Instance exn_eq_dec : EqDecision exn.
Proof. solve_decision. Defined.

#[global] Instance result_ret : MRet result := λ A, Ok.

#[global] Instance result_bind : MBind result := λ A B f m,
  match m with Ok a => f a | Raise e => Raise e end.

#[global] Instance result_fmap : FMap result := λ A B f m,
  match m with Ok a => Ok (f a) | Raise e => Raise e end.

(** The integer [n] rounded to the nearest binary64 value, ties to
    even; infinite when the rounded value is beyond the largest finite
    one. *)
Definition nearest_float (n : Z) : float :=
  SF2Prim (SpecFloat.binary_normalize prec emax n 0 false).

(** [float(n)] for an [int]: the nearest binary64 value, and
    [OverflowError] ("int too large to convert to float") when that is
    beyond the largest finite one. *)
Definition float_of_int (n : Z) : result float :=
  let f := nearest_float n in
  if PrimFloat.is_infinity f then Raise OverflowError else Ok f.

(** ** Worksheets and records ([excel_utils.py]) *)

(** A cell of a worksheet as pandas hands it over.  An empty cell is a
    NaN float; [VObject] is any other object, given by its [str()]. *)
Inductive value :=
| VNone
| VFloat (f : float)
| VInt (n : Z)
| VBool (b : bool)
| VStr (s : str)
| VObject (repr : str).

Global Instance value_inhabited : Inhabited value := populate VNone.

(** A [DataFrame] read with [header=None]: the rows of the sheet. *)
Abbreviation DataFrame := (list (list value)).

Record datetime := {
  year : Z; month : Z; day : Z;
  hour : Z; minute : Z; second : Z; microsecond : Z;
}.

(** [s.zfill(width)] for a string of digits. *)
Definition zfill (width : nat) (s : str) : str :=
  replicate (width - length s) 0x30%N ++ s.

(** [dt.isoformat()] of a naive [datetime]. *)
Definition isoformat (dt : datetime) : str :=
  zfill 4 (int_repr (year dt)) ++ utf8 "-" ++
  zfill 2 (int_repr (month dt)) ++ utf8 "-" ++
  zfill 2 (int_repr (day dt)) ++ utf8 "T" ++
  zfill 2 (int_repr (hour dt)) ++ utf8 ":" ++
  zfill 2 (int_repr (minute dt)) ++ utf8 ":" ++
  zfill 2 (int_repr (second dt)) ++
  (if (microsecond dt =? 0)%Z then []
   else utf8 "." ++ zfill 6 (int_repr (microsecond dt))).

Module EstimateRow.
Record t := {
  source_file : str;
  source_sheet : str;
  file_datetime : datetime;
  a7_text : str;
  품명 : str;
  규격 : str;
  단위 : str;
  수량 : option float;
  단가 : option float;
  금액 : option float;
}.
End EstimateRow.

Module RequestRow.
Record t := {
  source_file : str;
  source_sheet : str;
  품명 : str;
  규격 : str;
  제조사 : str;
  단위 : str;
  구매량 : option float;
}.
End RequestRow.

Definition REQUIRED_HEADERS : list str :=
  Eval vm_compute in
  [utf8 "품명"; utf8 "규격"; utf8 "단위"; utf8 "수량"; utf8 "단가"; utf8 "금액"].

Definition REQUEST_HEADERS : list str :=
  Eval vm_compute in
  [utf8 "품명"; utf8 "규격"; utf8 "제조사"; utf8 "단위"; utf8 "구매량"].

Example isoformat_example :
  isoformat {| year := 2024; month := 3; day := 9; hour := 14; minute := 5;
               second := 0; microsecond := 1200 |}
  = utf8 "2024-03-09T14:05:00.001200".
Proof. reflexivity. Qed.

Section ExcelUtils.
Context `{Runtime}.

(** [str(value)] *)
Definition to_str (v : value) : str :=
  match v with
  | VNone => utf8 "None"
  | VFloat f => float_repr f
  | VInt n => int_repr n
  | VBool b => if b then utf8 "True" else utf8 "False"
  | VStr s => s
  | VObject repr => repr
  end.

(** [isinstance(value, float) and pd.isna(value)] *)
Definition is_nan_float (v : value) : bool :=
  match v with VFloat f => PrimFloat.is_nan f | _ => false end.

Definition normalize_text (v : value) : str :=
  match v with
  | VNone => []
  | _ =>
      if is_nan_float v then []
      else
        let text := to_str v in
        let text := nfc text in
        remove_whitespace text
  end.

(** [float(value)] on an [int] is outside the [try] and raises
    [OverflowError] on an integer beyond the binary64 range; [bool] is
    a subclass of [int]. *)
Definition to_float (v : value) : result (option float) :=
  match v with
  | VNone => Ok None
  | VFloat f => Ok (if PrimFloat.is_nan f then None else Some f)
  | VInt n => Some <$> float_of_int n
  | VBool b => Some <$> float_of_int (if b then 1 else 0)
  | _ =>
      let text := filter (λ c, c ≠ 0x2C%N) (strip (to_str v)) in
      Ok (if truthy text then float_of_str text else None)
  end.

(** [df.iat[6, 0]] raises [IndexError] outside the frame. *)
Definition extract_a7_text (df : DataFrame) : str :=
  match df !! 6 ≫= (.!! 0) with
  | None => []
  | Some VNone => []
  | Some v => strip (to_str v)
  end.

(** *** Header location *)

Definition header_step (header_map : gmap str nat)
    (col_idx : nat) (cell : str) : gmap str nat :=
  if bool_decide (cell ∈ REQUIRED_HEADERS)
     && bool_decide (header_map !! cell = None)
  then <[cell := col_idx]> header_map
  else header_map.

Definition request_header_step (header_map : gmap str nat)
    (col_idx : nat) (cell : str) : gmap str nat :=
  let header_map :=
    if bool_decide (cell ∈ REQUEST_HEADERS)
       && bool_decide (header_map !! cell = None)
    then <[cell := col_idx]> header_map
    else header_map in
  if bool_decide (cell = utf8 "수량")
     && bool_decide (header_map !! utf8 "구매량" = None)
  then <[utf8 "구매량" := col_idx]> header_map
  else header_map.

(** [for col_idx, cell in enumerate(normalized): ...], from column
    [col_idx] on. *)
Fixpoint scan_header (step : gmap str nat -> nat -> str -> gmap str nat)
    (col_idx : nat) (normalized : list str) (header_map : gmap str nat)
    : gmap str nat :=
  match normalized with
  | [] => header_map
  | cell :: rest =>
      scan_header step (S col_idx) rest (step header_map col_idx cell)
  end.

Definition header_map_of_row (row : list value) : gmap str nat :=
  scan_header header_step 0 (map normalize_text row) ∅.

Definition request_header_map_of_row (row : list value) : gmap str nat :=
  scan_header request_header_step 0 (map normalize_text row) ∅.

Definition has_all (headers : list str) (header_map : gmap str nat) : bool :=
  forallb (λ h, bool_decide (is_Some (header_map !! h))) headers.

Fixpoint find_header_row_from (row_idx : nat) (rows : DataFrame)
    : option (nat * gmap str nat) :=
  match rows with
  | [] => None
  | row :: rest =>
      let header_map := header_map_of_row row in
      if has_all REQUIRED_HEADERS header_map
      then Some (row_idx, header_map)
      else find_header_row_from (S row_idx) rest
  end.

Definition find_header_row (df : DataFrame) : option (nat * gmap str nat) :=
  find_header_row_from 0 df.

Fixpoint find_request_header_row_from (row_idx : nat) (rows : DataFrame)
    : option (nat * gmap str nat) :=
  match rows with
  | [] => None
  | row :: rest =>
      let header_map := request_header_map_of_row row in
      if has_all (filter (λ h, h ≠ utf8 "구매량") REQUEST_HEADERS) header_map
         && bool_decide (is_Some (header_map !! utf8 "구매량"))
      then Some (row_idx, header_map)
      else find_request_header_row_from (S row_idx) rest
  end.

Definition find_request_header_row (df : DataFrame)
    : option (nat * gmap str nat) :=
  find_request_header_row_from 0 df.

(** *** Data region extraction *)

(** [any(normalize_text(values[key]) for key in headers)] *)
Definition has_any (headers : list str) (values : gmap str value) : bool :=
  existsb (λ key, truthy (normalize_text (values !!! key))) headers.

(** The [values] dict of one row in [iter_estimate_rows];
    [header_map[key]] raises [KeyError] on a missing label, a column
    beyond the row reads as [None]. *)
Definition estimate_values (header_map : gmap str nat) (row : list value)
    : result (gmap str value) :=
  list_to_map <$>
    mapM (λ key,
            match header_map !! key with
            | Some col_idx => Ok (key, default VNone (row !! col_idx))
            | None => Raise KeyError
            end)
         REQUIRED_HEADERS.

(** The loop of [iter_estimate_rows] over the rows below the header,
    entered with the given counters; the result is the list of the
    yielded dicts, or the exception that leaves the loop.  The only
    exception is the [KeyError] of a header map that lacks a label,
    which the first row raises before anything is yielded, so that the
    list can stand for the generator. *)
Fixpoint iter_estimate_rows_from (header_map : gmap str nat)
    (data_rows empty_streak : nat) (rows : DataFrame)
    : result (list (gmap str value)) :=
  match rows with
  | [] => Ok []
  | row :: rest =>
      values ← estimate_values header_map row;
      if has_any REQUIRED_HEADERS values then
        (values ::.) <$> iter_estimate_rows_from header_map (S data_rows) 0 rest
      else if bool_decide (0 < data_rows) then
        let empty_streak := S empty_streak in
        if bool_decide (2 ≤ empty_streak) then Ok []
        else iter_estimate_rows_from header_map data_rows empty_streak rest
      else iter_estimate_rows_from header_map data_rows empty_streak rest
  end.

Definition iter_estimate_rows (df : DataFrame) (header_row : nat)
    (header_map : gmap str nat) : result (list (gmap str value)) :=
  iter_estimate_rows_from header_map 0 0 (drop (S header_row) df).

(** The body of the loop of [parse_estimate_sheet] for one yielded
    dict: [Ok None] when the row is dropped for its empty item name;
    the three numbers are converted in the order of the constructor's
    arguments. *)
Definition estimate_row_of (path sheet_name : str) (file_dt : datetime)
    (a7_text : str) (values : gmap str value)
    : result (option EstimateRow.t) :=
  let 품명 := normalize_text (values !!! utf8 "품명") in
  let 규격 := normalize_text (values !!! utf8 "규격") in
  let 단위 := normalize_text (values !!! utf8 "단위") in
  if negb (truthy 품명) then Ok None
  else
    수량 ← to_float (values !!! utf8 "수량");
    단가 ← to_float (values !!! utf8 "단가");
    금액 ← to_float (values !!! utf8 "금액");
    Ok (Some {|
      EstimateRow.source_file := path;
      EstimateRow.source_sheet := sheet_name;
      EstimateRow.file_datetime := file_dt;
      EstimateRow.a7_text := a7_text;
      EstimateRow.품명 := 품명;
      EstimateRow.규격 := 규격;
      EstimateRow.단위 := 단위;
      EstimateRow.수량 := 수량;
      EstimateRow.단가 := 단가;
      EstimateRow.금액 := 금액;
    |}).

(** The [for] loop of [parse_estimate_sheet] over the yielded dicts. *)
Fixpoint estimate_rows_of (path sheet_name : str) (file_dt : datetime)
    (a7_text : str) (yielded : list (gmap str value))
    : result (list EstimateRow.t) :=
  match yielded with
  | [] => Ok []
  | values :: rest =>
      r ← estimate_row_of path sheet_name file_dt a7_text values;
      match r with
      | None => estimate_rows_of path sheet_name file_dt a7_text rest
      | Some e =>
          (e ::.) <$> estimate_rows_of path sheet_name file_dt a7_text rest
      end
  end.

(** [get_file_datetime] is the outcome of [get_file_datetime(path)]:
    the time that the file system reports for the file, or the
    exception of the [stat] call. *)
Definition parse_estimate_sheet (path sheet_name : str)
    (get_file_datetime : result datetime) (df : DataFrame)
    : result (list EstimateRow.t) :=
  match find_header_row df with
  | None => Ok []
  | Some (header_row, header_map) =>
      let a7_text := extract_a7_text df in
      file_dt ← get_file_datetime;
      yielded ← iter_estimate_rows df header_row header_map;
      estimate_rows_of path sheet_name file_dt a7_text yielded
  end.

(** The [values] dict of one row in [parse_request_sheet];
    [row.iloc[col_idx]] raises [IndexError] beyond the row. *)
Definition request_values (header_map : gmap str nat) (row : list value)
    : result (gmap str value) :=
  list_to_map <$>
    mapM (λ key,
            match header_map !! key with
            | Some col_idx =>
                match row !! col_idx with
                | Some v => Ok (key, v)
                | None => Raise IndexError
                end
            | None => Ok (key, VNone)
            end)
         REQUEST_HEADERS.

(** The body of the loop of [parse_request_sheet] for a row that has
    data: [Ok None] when the row is dropped for its empty item name. *)
Definition request_row_of (path sheet_name : str)
    (values : gmap str value) : result (option RequestRow.t) :=
  let 품명 := normalize_text (values !!! utf8 "품명") in
  let 규격 := normalize_text (values !!! utf8 "규격") in
  let 제조사 := normalize_text (values !!! utf8 "제조사") in
  let 단위 := normalize_text (values !!! utf8 "단위") in
  if negb (truthy 품명) then Ok None
  else
    구매량 ← to_float (values !!! utf8 "구매량");
    Ok (Some {|
      RequestRow.source_file := path;
      RequestRow.source_sheet := sheet_name;
      RequestRow.품명 := 품명;
      RequestRow.규격 := 규격;
      RequestRow.제조사 := 제조사;
      RequestRow.단위 := 단위;
      RequestRow.구매량 := 구매량;
    |}).

(** The loop of [parse_request_sheet] over the rows below the header;
    the result is [results] when the loop ends or breaks. *)
Fixpoint parse_request_rows_from (path sheet_name : str)
    (header_map : gmap str nat) (data_rows empty_streak : nat)
    (rows : DataFrame) : result (list RequestRow.t) :=
  match rows with
  | [] => Ok []
  | row :: rest =>
      values ← request_values header_map row;
      if has_any REQUEST_HEADERS values then
        r ← request_row_of path sheet_name values;
        match r with
        | None =>
            parse_request_rows_from path sheet_name header_map
              (S data_rows) 0 rest
        | Some r =>
            (r ::.) <$> parse_request_rows_from path sheet_name header_map
                          (S data_rows) 0 rest
        end
      else if bool_decide (0 < data_rows) then
        let empty_streak := S empty_streak in
        if bool_decide (2 ≤ empty_streak) then Ok []
        else parse_request_rows_from path sheet_name header_map
               data_rows empty_streak rest
      else parse_request_rows_from path sheet_name header_map
             data_rows empty_streak rest
  end.

Definition parse_request_sheet (path sheet_name : str) (df : DataFrame)
    : result (list RequestRow.t) :=
  match find_request_header_row df with
  | None => Ok []
  | Some (header_row, header_map) =>
      parse_request_rows_from path sheet_name header_map 0 0
        (drop (S header_row) df)
  end.
End ExcelUtils.

(** ** The price history ([level1_build_db.py]) *)

(** A row of the [estimate_items] table; the table is the list of its
    rows in insertion order ([id] is the position). *)
Module estimate_items.
Record row := {
  source_file : str;
  source_sheet : str;
  file_datetime : str;
  a7_text : option str;
  품명 : str;
  규격 : option str;
  단위 : option str;
  수량 : option float;
  단가 : option float;
  금액 : option float;
}.
End estimate_items.

(** A float bound to a REAL column: SQLite stores NaN as NULL. *)
Definition bind_real (x : option float) : option float :=
  x ≫= λ f, if PrimFloat.is_nan f then None else Some f.

Definition insert_values (r : EstimateRow.t) : estimate_items.row := {|
  estimate_items.source_file := EstimateRow.source_file r;
  estimate_items.source_sheet := EstimateRow.source_sheet r;
  estimate_items.file_datetime := isoformat (EstimateRow.file_datetime r);
  estimate_items.a7_text := Some (EstimateRow.a7_text r);
  estimate_items.품명 := EstimateRow.품명 r;
  estimate_items.규격 := Some (EstimateRow.규격 r);
  estimate_items.단위 := Some (EstimateRow.단위 r);
  estimate_items.수량 := bind_real (EstimateRow.수량 r);
  estimate_items.단가 := bind_real (EstimateRow.단가 r);
  estimate_items.금액 := bind_real (EstimateRow.금액 r);
|}.

(** [insert_rows]: the table afterwards and the returned count. *)
Definition insert_rows (table : list estimate_items.row)
    (rows : list EstimateRow.t) : list estimate_items.row * nat :=
  (table ++ map insert_values rows, length rows).

(** [a] does not come after [b] under [ORDER BY file_datetime DESC]. *)
Definition newest_first (a b : estimate_items.row) : Prop :=
  str_leb (estimate_items.file_datetime b) (estimate_items.file_datetime a).

(** SQLite's [ORDER BY file_datetime DESC]: some arrangement of the
    selected rows in descending order; the order among rows of equal
    [file_datetime] is the engine's choice. *)
Class Sqlite := {
  order_by_file_datetime_desc :
    list estimate_items.row -> list estimate_items.row;
  order_by_permutation rows : order_by_file_datetime_desc rows ≡ₚ rows;
  order_by_sorted rows : Sorted newest_first (order_by_file_datetime_desc rows);
}.

(** ** Price resolution ([level3_match_prices.py]) *)

Module Candidate.
Record t := {
  단가 : option float;
  견적서파일 : str;
  시트 : str;
  견적날짜 : str;
  A7 : option str;
}.
End Candidate.

Module MatchedRow.
Record t := {
  request : RequestRow.t;
  matched : bool;
  match_method : option str;
  matched_source_file : option str;
  matched_source_sheet : option str;
  matched_file_datetime : option str;
  matched_a7_text : option str;
  단가 : option float;
  금액 : option float;
  status : str;
  candidates : list Candidate.t;
}.
End MatchedRow.

(** Truthiness of an [Optional[sqlite3.Row]]: a fetched row has
    columns, so it is true. *)
Definition found {A} (r : option A) : bool :=
  match r with Some _ => true | None => false end.

Definition is_ascii_alnum (c : char) : bool :=
  ((0x30 <=? c) && (c <=? 0x39) || (0x41 <=? c) && (c <=? 0x5A)
   || (0x61 <=? c) && (c <=? 0x7A))%N.

Section Matching.
Context `{Runtime} `{Sqlite}.

Definition lookup_latest_price (table : list estimate_items.row)
    (품명 규격 : str) : option estimate_items.row :=
  head (order_by_file_datetime_desc
          (filter (λ r, estimate_items.품명 r = 품명
                        ∧ estimate_items.규격 r = Some 규격) table)).

Definition lookup_candidates (table : list estimate_items.row)
    (품명 규격 : str) : list estimate_items.row :=
  order_by_file_datetime_desc
    (filter (λ r, estimate_items.품명 r = 품명
                  ∧ estimate_items.규격 r = Some 규격
                  ∧ estimate_items.단가 r ≠ None) table).

Definition lookup_latest_price_by_spec (table : list estimate_items.row)
    (규격 : str) : option estimate_items.row :=
  head (order_by_file_datetime_desc
          (filter (λ r, estimate_items.규격 r = Some 규격) table)).

Definition lookup_latest_price_by_name (table : list estimate_items.row)
    (품명 : str) : option estimate_items.row :=
  head (order_by_file_datetime_desc
          (filter (λ r, estimate_items.품명 r = 품명) table)).

Definition normalize_code (value : str) : str :=
  if negb (truthy value) then []
  else filter (λ c, is_ascii_alnum c) (upper value).

(** [for row in cursor.fetchall(): ...] of the fuzzy lookup. *)
Fixpoint first_fuzzy (target : str) (rows : list estimate_items.row)
    : option estimate_items.row :=
  match rows with
  | [] => None
  | row :: rest =>
      let candidate := normalize_code (default [] (estimate_items.규격 row)) in
      if negb (truthy candidate) then first_fuzzy target rest
      else if endswith target candidate || endswith candidate target
      then Some row
      else first_fuzzy target rest
  end.

Definition lookup_latest_price_fuzzy_spec (table : list estimate_items.row)
    (규격 : str) : option estimate_items.row :=
  let target := normalize_code 규격 in
  if negb (truthy target) then None
  else
    first_fuzzy target
      (order_by_file_datetime_desc
         (filter (λ r, estimate_items.규격 r ≠ None
                       ∧ estimate_items.규격 r ≠ Some []) table)).

Definition candidate_of (c : estimate_items.row) : Candidate.t := {|
  Candidate.단가 := estimate_items.단가 c;
  Candidate.견적서파일 := estimate_items.source_file c;
  Candidate.시트 := estimate_items.source_sheet c;
  Candidate.견적날짜 := estimate_items.file_datetime c;
  Candidate.A7 := estimate_items.a7_text c;
|}.

(** The tier cascade of the loop body of [match_prices]: the final
    [matched_row] and [match_method]. *)
Definition resolve_tiers (table : list estimate_items.row)
    (row : RequestRow.t) : option estimate_items.row * option str :=
  let matched_row :=
    lookup_latest_price table (RequestRow.품명 row) (RequestRow.규격 row) in
  let match_method :=
    if found matched_row then Some (utf8 "품명+규격") else None in
  let '(matched_row, match_method) :=
    if negb (found matched_row) && truthy (RequestRow.규격 row) then
      let matched_row :=
        lookup_latest_price_by_spec table (RequestRow.규격 row) in
      (matched_row, if found matched_row then Some (utf8 "규격") else None)
    else (matched_row, match_method) in
  let '(matched_row, match_method) :=
    if negb (found matched_row) && truthy (RequestRow.규격 row) then
      let matched_row :=
        lookup_latest_price_fuzzy_spec table (RequestRow.규격 row) in
      (matched_row,
       if found matched_row then Some (utf8 "규격-유사") else None)
    else (matched_row, match_method) in
  if negb (found matched_row) && truthy (RequestRow.품명 row) then
    let matched_row :=
      lookup_latest_price_by_name table (RequestRow.품명 row) in
    (matched_row, if found matched_row then Some (utf8 "품명") else None)
  else (matched_row, match_method).

(** The body of the loop of [match_prices] for one request. *)
Definition match_row (table : list estimate_items.row)
    (row : RequestRow.t) : MatchedRow.t :=
  let candidates_rows :=
    if truthy (RequestRow.품명 row) && truthy (RequestRow.규격 row)
    then lookup_candidates table (RequestRow.품명 row) (RequestRow.규격 row)
    else [] in
  let candidates := map candidate_of candidates_rows in
  let '(matched_row, match_method) := resolve_tiers table row in
  match matched_row ≫= (λ m, pair m <$> estimate_items.단가 m) with
  | Some (m, 단가) =>
      let 금액 := PrimFloat.mul 단가 <$> RequestRow.구매량 row in
      {| MatchedRow.request := row;
         MatchedRow.matched := true;
         MatchedRow.match_method := match_method;
         MatchedRow.matched_source_file := Some (estimate_items.source_file m);
         MatchedRow.matched_source_sheet := Some (estimate_items.source_sheet m);
         MatchedRow.matched_file_datetime := Some (estimate_items.file_datetime m);
         MatchedRow.matched_a7_text := estimate_items.a7_text m;
         MatchedRow.단가 := Some 단가;
         MatchedRow.금액 := 금액;
         MatchedRow.status := utf8 "매칭";
         MatchedRow.candidates := candidates |}
  | None =>
      {| MatchedRow.request := row;
         MatchedRow.matched := false;
         MatchedRow.match_method := match_method;
         MatchedRow.matched_source_file :=
           estimate_items.source_file <$> matched_row;
         MatchedRow.matched_source_sheet :=
           estimate_items.source_sheet <$> matched_row;
         MatchedRow.matched_file_datetime :=
           estimate_items.file_datetime <$> matched_row;
         MatchedRow.matched_a7_text :=
           matched_row ≫= estimate_items.a7_text;
         MatchedRow.단가 := None;
         MatchedRow.금액 := None;
         MatchedRow.status := utf8 "단가 없음";
         MatchedRow.candidates := candidates |}
  end.

Definition match_prices (table : list estimate_items.row)
    (requests : list RequestRow.t) : list MatchedRow.t :=
  map (match_row table) requests.
End Matching.

(** The override step of [generate_estimate]
    ([level4_generate_estimate.py]): a replacement unit price, or
    [None] to clear it, by position in the result list. *)
Definition override_item (unit_price : option float) (item : MatchedRow.t)
    : MatchedRow.t :=
  let request := MatchedRow.request item in
  let '(단가, 금액) :=
    match unit_price with
    | None => (None, None)
    | Some unit_price =>
        (Some unit_price,
         PrimFloat.mul unit_price <$> RequestRow.구매량 request)
    end in
  {| MatchedRow.request := request;
     MatchedRow.matched := MatchedRow.matched item;
     MatchedRow.match_method := MatchedRow.match_method item;
     MatchedRow.matched_source_file := MatchedRow.matched_source_file item;
     MatchedRow.matched_source_sheet := MatchedRow.matched_source_sheet item;
     MatchedRow.matched_file_datetime := MatchedRow.matched_file_datetime item;
     MatchedRow.matched_a7_text := MatchedRow.matched_a7_text item;
     MatchedRow.단가 := 단가;
     MatchedRow.금액 := 금액;
     MatchedRow.status := MatchedRow.status item;
     MatchedRow.candidates := MatchedRow.candidates item |}.

Definition apply_overrides (overrides : gmap nat (option float))
    (matched : list MatchedRow.t) : list MatchedRow.t :=
  imap (λ idx item,
          match overrides !! idx with
          | None => item
          | Some unit_price => override_item unit_price item
          end) matched.

(** ** A reference runtime

    An executable implementation of the two interfaces, used to run the
    program on concrete sheets and tables.  Whitespace is Python's full
    set.  The other fields are exact on a fragment: [ref_nfc] on text
    made of ASCII, whitespace, Hangul jamo and syllables, and the listed
    Latin letters with U+0301; [ref_upper] on ASCII text; [ref_float_repr]
    on NaN, infinities, zeros and integral values below 10^16;
    [ref_float_of_str] on signed decimal literals of at most 15 digits.
    Outside its fragment a field returns its argument or a default, and
    no run below takes it there. *)
Module Reference.

Definition ref_isspace (c : char) : bool :=
  bool_decide (c ∈ [0x9; 0xA; 0xB; 0xC; 0xD; 0x1C; 0x1D; 0x1E; 0x1F; 0x20;
                    0x85; 0xA0; 0x1680; 0x2000; 0x2001; 0x2002; 0x2003;
                    0x2004; 0x2005; 0x2006; 0x2007; 0x2008; 0x2009; 0x200A;
                    0x2028; 0x2029; 0x202F; 0x205F; 0x3000]%N).

(** The primary composite of a starter and the character after it. *)
Definition compose_pair (a b : char) : option char :=
  if ((0x1100 <=? a) && (a <? 0x1113) && (0x1161 <=? b) && (b <? 0x1176))%N
  then Some (0xAC00 + ((a - 0x1100) * 21 + (b - 0x1161)) * 28)%N
  else if ((0xAC00 <=? a) && (a <? 0xD7A4) && ((a - 0xAC00) mod 28 =? 0)
           && (0x11A7 <? b) && (b <? 0x11C3))%N
  then Some (a + (b - 0x11A7))%N
  else if (b =? 0x301)%N then
    list_to_map (M := gmap N N)
      [(0x41, 0xC1); (0x45, 0xC9); (0x49, 0xCD); (0x4F, 0xD3); (0x55, 0xDA);
       (0x61, 0xE1); (0x65, 0xE9); (0x69, 0xED); (0x6F, 0xF3); (0x75, 0xFA)]%N
      !! a
  else None.

Fixpoint compose (last : char) (rest : str) : str :=
  match rest with
  | [] => [last]
  | c :: rest' =>
      match compose_pair last c with
      | Some x => compose x rest'
      | None => last :: compose c rest'
      end
  end.

Definition ref_nfc (text : str) : str :=
  match text with
  | [] => []
  | c :: rest => compose c rest
  end.

Definition ref_upper (text : str) : str :=
  map (λ c, if (0x61 <=? c) && (c <=? 0x7A) then c - 0x20 else c)%N text.

Definition ref_float_repr (f : float) : str :=
  match Prim2SF f with
  | SpecFloat.S754_nan => utf8 "nan"
  | SpecFloat.S754_infinity s => if s then utf8 "-inf" else utf8 "inf"
  | SpecFloat.S754_zero s => if s then utf8 "-0.0" else utf8 "0.0"
  | SpecFloat.S754_finite s m e =>
      let n := (Z.pos m * 2 ^ e)%Z in
      if ((0 <=? e) && (n <? 10 ^ 16))%Z
      then (if s then utf8 "-" else []) ++ int_repr n ++ utf8 ".0"
      else if ((e <? 0) && (Z.pos m mod 2 ^ (- e) =? 0))%Z
      then (if s then utf8 "-" else [])
           ++ int_repr (Z.pos m / 2 ^ (- e)) ++ utf8 ".0"
      else []
  end.

(** Digits of a decimal literal: the integer they spell without the
    point, and the number of digits after it. *)
Fixpoint digits (s : str) (seen_point : bool) (acc : Z) (scale : nat)
    : option (Z * nat) :=
  match s with
  | [] => Some (acc, scale)
  | c :: rest =>
      if ((0x30 <=? c) && (c <=? 0x39))%N
      then digits rest seen_point (10 * acc + Z.of_N (c - 0x30))%Z
             (if seen_point then S scale else scale)
      else if (c =? 0x2E)%N && negb seen_point
      then digits rest true acc scale
      else None
  end.

Definition ref_float_of_str (text : str) : option float :=
  let '(negative, body) :=
    match text with
    | 0x2D%N :: body => (true, body)
    | 0x2B%N :: body => (false, body)
    | _ => (false, text)
    end in
  if bool_decide (body = [] ∨ body = [0x2E%N] ∨ 16 ≤ length body) then None
  else
    '(n, scale) ← digits body false 0 0;
    let q := PrimFloat.div (nearest_float n)
               (nearest_float (10 ^ Z.of_nat scale)) in
    Some (if negative then PrimFloat.opp q else q).

Definition runtime : Runtime := {|
  nfc := ref_nfc;
  isspace := ref_isspace;
  upper := ref_upper;
  float_repr := ref_float_repr;
  float_of_str := ref_float_of_str;
|}.

(** Rows in descending [file_datetime]; among rows of equal
    [file_datetime] the one inserted last comes first. *)
Fixpoint insert_desc (r : estimate_items.row) (sorted : list estimate_items.row)
    : list estimate_items.row :=
  match sorted with
  | [] => [r]
  | x :: rest =>
      if str_leb (estimate_items.file_datetime x) (estimate_items.file_datetime r)
      then r :: sorted
      else x :: insert_desc r rest
  end.

Definition sort_desc (rows : list estimate_items.row)
    : list estimate_items.row :=
  foldl (λ sorted r, insert_desc r sorted) [] rows.

Lemma str_leb_total (a b : str) : str_leb a b = false -> str_leb b a = true.
Proof.
  revert b; induction a as [|x a IH]; intros [|y b]; simpl; try done.
  destruct (N.ltb_spec x y), (N.ltb_spec y x); try done; try lia.
  apply IH.
Qed.

Lemma insert_desc_perm r sorted : insert_desc r sorted ≡ₚ r :: sorted.
Proof.
  induction sorted as [|x rest IH]; simpl; [done|].
  case_match; [done|]. rewrite IH. apply Permutation_swap.
Qed.

Lemma insert_desc_sorted r sorted :
  Sorted newest_first sorted -> Sorted newest_first (insert_desc r sorted).
Proof.
  induction 1 as [|x rest Hs IH Hhd]; simpl.
  - repeat constructor.
  - destruct (str_leb _ _) eqn:Hle.
    + constructor; [by constructor|]. constructor.
      unfold newest_first. by rewrite Hle.
    + constructor; [done|].
      apply str_leb_total in Hle.
      destruct rest as [|y rest]; simpl in *.
      * constructor. unfold newest_first. by rewrite Hle.
      * case_match; constructor.
        -- unfold newest_first. by rewrite Hle.
        -- by inversion Hhd.
Qed.

Lemma sort_desc_perm rows : sort_desc rows ≡ₚ rows.
Proof.
  unfold sort_desc.
  cut (forall acc, foldl (λ sorted r, insert_desc r sorted) acc rows
                   ≡ₚ acc ++ rows).
  { intros Hc. apply Hc. }
  induction rows as [|r rows IH]; intros acc; simpl.
  - by rewrite app_nil_r.
  - rewrite IH, insert_desc_perm. simpl. apply Permutation_middle.
Qed.

Lemma sort_desc_sorted rows : Sorted newest_first (sort_desc rows).
Proof.
  unfold sort_desc.
  cut (forall acc, Sorted newest_first acc ->
         Sorted newest_first (foldl (λ sorted r, insert_desc r sorted) acc rows)).
  { intros Hc. apply Hc. constructor. }
  induction rows as [|r rows IH]; intros acc Hacc; simpl; [done|].
  by apply IH, insert_desc_sorted.
Qed.

Definition sqlite : Sqlite := {|
  order_by_file_datetime_desc := sort_desc;
  order_by_permutation := sort_desc_perm;
  order_by_sorted := sort_desc_sorted;
|}.

End Reference.


Example ref_examples :
  Reference.ref_nfc (utf8 "견적서") = utf8 "견적서"
  /\ Reference.ref_nfc [0x1100; 0x1167; 0x11AB]%N = utf8 "견"
  /\ Reference.ref_float_repr 1200%float = utf8 "1200.0"
  /\ Reference.ref_float_of_str (utf8 "12.5") = Some 12.5%float
  /\ Reference.ref_float_of_str (utf8 "-0.25") = Some (-0.25)%float
  /\ Reference.ref_upper (utf8 "abc-0012-Rev2") = utf8 "ABC-0012-REV2".
Proof. repeat split; vm_compute; reflexivity. Qed.

(** * Properties *)

(** ** Text normalization *)

Section NormalizeProps.
Context `{Runtime}.

Lemma remove_whitespace_no_space text :
  Forall (λ c, isspace c = false) (remove_whitespace text).
Proof.
  apply Forall_forall. intros c Hc.
  by apply list_elem_of_filter in Hc as [? _].
Qed.

Lemma remove_whitespace_fixed text :
  Forall (λ c, isspace c = false) text -> remove_whitespace text = text.
Proof.
  unfold remove_whitespace.
  induction 1 as [|c text Hc _ IH]; [done|].
  rewrite filter_cons. case_decide; [by rewrite IH|done].
Qed.

Lemma normalize_text_no_space x :
  Forall (λ c, isspace c = false) (normalize_text x).
Proof.
  destruct x; simpl; try case_match;
    first [ by constructor | apply remove_whitespace_no_space ].
Qed.

Lemma normalize_text_null_like :
  normalize_text VNone = []
  /\ forall f, PrimFloat.is_nan f = true -> normalize_text (VFloat f) = [].
Proof. split; [done|]. intros f Hf. simpl. by rewrite Hf. Qed.

(** C8 (amended).  Normalizing twice is the same as normalizing once
    for every input whose normalized text is already canonically
    composed, that is, left unchanged by NFC.  (Deleting whitespace
    after composing can bring a base character next to a combining
    mark; only a second pass composes the two.) *)
Theorem normalize_text_idempotent_on_composed (x : value) :
  nfc (normalize_text x) = normalize_text x ->
  normalize_text (VStr (normalize_text x)) = normalize_text x.
Proof.
  intros Hnfc. cbn. rewrite Hnfc.
  apply remove_whitespace_fixed, normalize_text_no_space.
Qed.
End NormalizeProps.

(** C8, witness: a label with an embedded space, in composed form. *)
Lemma normalize_text_idempotent_on_composed_witness :
  @normalize_text Reference.runtime
     (VStr (@normalize_text Reference.runtime (VStr (utf8 "구 매량"))))
  = @normalize_text Reference.runtime (VStr (utf8 "구 매량")).
Proof.
  apply (@normalize_text_idempotent_on_composed Reference.runtime).
  reflexivity.
Defined.

(** C8, counterexample: "e", space, U+0301 (combining acute).  NFC
    leaves the three characters alone, whitespace removal joins "e" and
    the accent, and the second pass composes them into U+00E9. *)
Lemma normalize_text_not_idempotent :
  @normalize_text Reference.runtime (VStr [0x65; 0x20; 0x301]%N)
    = [0x65; 0x301]%N
  /\ @normalize_text Reference.runtime
       (VStr (@normalize_text Reference.runtime (VStr [0x65; 0x20; 0x301]%N)))
    = [0xE9]%N.
Proof. split; reflexivity. Qed.

(** ** Price resolution *)

Section MatchingProps.
Context `{Runtime} `{Sqlite}.

(** The amount that goes with a unit price and a quantity. *)
Definition amount_of (unit_price quantity : option float) : option float :=
  match unit_price, quantity with
  | Some unit_price, Some quantity => Some (PrimFloat.mul unit_price quantity)
  | _, _ => None
  end.

Definition amount_consistent (m : MatchedRow.t) : Prop :=
  MatchedRow.금액 m
  = amount_of (MatchedRow.단가 m) (RequestRow.구매량 (MatchedRow.request m)).

Lemma match_row_amount table row : amount_consistent (match_row table row).
Proof.
  unfold amount_consistent, match_row.
  destruct (resolve_tiers table row) as [[m|] method]; simpl; [|done].
  destruct (estimate_items.단가 m) as [p|]; simpl; [|done].
  by destruct (RequestRow.구매량 row).
Qed.

Lemma override_item_amount unit_price item :
  amount_consistent (override_item unit_price item).
Proof.
  unfold amount_consistent, override_item.
  destruct unit_price; simpl; [|done].
  by destruct (RequestRow.구매량 _).
Qed.

(** C6.  In every result of [match_prices], for the request it wraps,
    the amount is the product of the resolved unit price and the
    requested quantity when both are known, and unknown (never zero by
    default) when either one is unknown; the override step keeps it so. *)
Theorem amount_is_product_or_unknown table requests overrides :
  Forall2 (λ row m,
      MatchedRow.request m = row
      /\ MatchedRow.금액 m
         = match MatchedRow.단가 m, RequestRow.구매량 row with
           | Some unit_price, Some quantity =>
               Some (PrimFloat.mul unit_price quantity)
           | _, _ => None
           end)
    requests (match_prices table requests)
  /\ Forall amount_consistent
       (apply_overrides overrides (match_prices table requests)).
Proof.
  split.
  - unfold match_prices. apply Forall2_fmap_r, Forall_Forall2_diag.
    apply Forall_forall. intros row _.
    assert (Hreq : MatchedRow.request (match_row table row) = row).
    { unfold match_row. destruct (resolve_tiers table row) as [m method].
      by destruct (m ≫= _) as [[]|]. }
    split; [done|].
    pose proof (match_row_amount table row) as Hc.
    unfold amount_consistent, amount_of in Hc. by rewrite Hreq in Hc.
  - unfold apply_overrides. apply Forall_lookup. intros i m Hm.
    rewrite list_lookup_imap in Hm.
    destruct (match_prices table requests !! i) as [item|] eqn:Hi; [|done].
    simpl in Hm. injection Hm as <-.
    destruct (overrides !! i); [apply override_item_amount|].
    unfold match_prices in Hi. rewrite list_lookup_fmap in Hi.
    destruct (requests !! i); [|done]. simpl in Hi. injection Hi as <-.
    apply match_row_amount.
Qed.

(** *** Facts about the lookups *)

Lemma order_by_elem_of r rows :
  r ∈ order_by_file_datetime_desc rows <-> r ∈ rows.
Proof. by rewrite order_by_permutation. Qed.

Lemma order_by_singleton r : order_by_file_datetime_desc [r] = [r].
Proof. apply Permutation_singleton_r, order_by_permutation. Qed.

Lemma order_by_nil : order_by_file_datetime_desc [] = [].
Proof. apply Permutation_nil_r, order_by_permutation. Qed.

Lemma head_order_by_filter (P : estimate_items.row -> Prop)
    `{!forall r, Decision (P r)} table r :
  head (order_by_file_datetime_desc (filter P table)) = Some r ->
  r ∈ table /\ P r.
Proof.
  intros Hhd. apply head_Some_elem_of in Hhd.
  apply order_by_elem_of, list_elem_of_filter in Hhd. tauto.
Qed.

Lemma first_fuzzy_Some target rows r :
  first_fuzzy target rows = Some r ->
  r ∈ rows
  /\ normalize_code (default [] (estimate_items.규격 r)) ≠ []
  /\ endswith target (normalize_code (default [] (estimate_items.규격 r)))
      || endswith (normalize_code (default [] (estimate_items.규격 r))) target.
Proof.
  induction rows as [|row rest IH]; simpl; [done|].
  destruct (normalize_code (default [] (estimate_items.규격 row))) as [|c key] eqn:Hkey;
    simpl.
  - intros Hr. destruct (IH Hr) as (? & ? & ?).
    split; [by apply list_elem_of_further|done].
  - case_match eqn:Hends.
    + intros [= <-]. rewrite Hkey.
      split; [apply list_elem_of_here|]. split; [done|by rewrite Hends].
    + intros Hr. destruct (IH Hr) as (? & ? & ?).
      split; [by apply list_elem_of_further|done].
Qed.

Lemma normalize_code_nil : normalize_code [] = [].
Proof. done. Qed.

(** *** Tier order *)

(** The four tiers in the order they are tried, each with its label and
    what it returns; a tier whose key field is empty is not tried. *)
Definition tier_results (table : list estimate_items.row) (row : RequestRow.t)
    : list (str * option estimate_items.row) :=
  [ (utf8 "품명+규격",
     lookup_latest_price table (RequestRow.품명 row) (RequestRow.규격 row));
    (utf8 "규격",
     if truthy (RequestRow.규격 row)
     then lookup_latest_price_by_spec table (RequestRow.규격 row) else None);
    (utf8 "규격-유사",
     if truthy (RequestRow.규격 row)
     then lookup_latest_price_fuzzy_spec table (RequestRow.규격 row) else None);
    (utf8 "품명",
     if truthy (RequestRow.품명 row)
     then lookup_latest_price_by_name table (RequestRow.품명 row) else None) ].

(** The first tier that returns a record, priced or not. *)
Fixpoint first_record (tiers : list (str * option estimate_items.row))
    : option (str * estimate_items.row) :=
  match tiers with
  | [] => None
  | (method, Some r) :: _ => Some (method, r)
  | (_, None) :: rest => first_record rest
  end.

Lemma resolve_tiers_first_record table row :
  resolve_tiers table row =
    match first_record (tier_results table row) with
    | Some (method, r) => (Some r, Some method)
    | None => (None, None)
    end.
Proof.
  unfold resolve_tiers, tier_results. simpl.
  destruct (lookup_latest_price _ _ _); simpl; [done|].
  destruct (truthy (RequestRow.규격 row)); simpl.
  - destruct (lookup_latest_price_by_spec _ _); simpl; [done|].
    destruct (lookup_latest_price_fuzzy_spec _ _); simpl; [done|].
    destruct (truthy (RequestRow.품명 row)); simpl; [|done].
    by destruct (lookup_latest_price_by_name _ _).
  - destruct (truthy (RequestRow.품명 row)); simpl; [|done].
    by destruct (lookup_latest_price_by_name _ _).
Qed.

Lemma first_record_Some tiers method r :
  first_record tiers = Some (method, r) -> (method, Some r) ∈ tiers.
Proof.
  induction tiers as [|[m [x|]] rest IH]; simpl; [done| |].
  - intros [= -> ->]. apply list_elem_of_here.
  - intros Hr. by apply list_elem_of_further, IH.
Qed.

Lemma fuzzy_lookup_elem_of table 규격 r :
  lookup_latest_price_fuzzy_spec table 규격 = Some r -> r ∈ table.
Proof.
  unfold lookup_latest_price_fuzzy_spec. case_match; [done|].
  intros Hr. apply first_fuzzy_Some in Hr as [Hr _].
  by apply order_by_elem_of, list_elem_of_filter in Hr as [_ ?].
Qed.

Lemma tier_results_elem_of table row method r :
  (method, Some r) ∈ tier_results table row -> r ∈ table.
Proof.
  unfold tier_results. rewrite !elem_of_cons, elem_of_nil.
  unfold lookup_latest_price, lookup_latest_price_by_spec,
    lookup_latest_price_by_name.
  intros [Ht|[Ht|[Ht|[Ht|[]]]]]; injection Ht as _ Ht; symmetry in Ht;
    try (destruct (truthy _); [|done]).
  - by apply head_order_by_filter in Ht as [? _].
  - by apply head_order_by_filter in Ht as [? _].
  - by apply fuzzy_lookup_elem_of in Ht.
  - by apply head_order_by_filter in Ht as [? _].
Qed.

Lemma resolve_tiers_elem_of table row r method :
  resolve_tiers table row = (Some r, method) -> r ∈ table.
Proof.
  rewrite resolve_tiers_first_record.
  destruct (first_record _) as [[m x]|] eqn:Hfirst; [|done].
  intros [= -> _]. apply first_record_Some in Hfirst.
  by apply tier_results_elem_of in Hfirst.
Qed.

(** C1 (amended).  The engine tries the tiers in the order exact,
    spec_only, spec_fuzzy, name_only and stops at the first tier that
    returns a record, whether or not that record has a unit price.  The
    result is priced exactly when that record's unit price is known;
    otherwise it is "no price found", with that record kept for
    provenance, and no later tier is consulted. *)
Theorem tiers_stop_at_first_record table row :
  resolve_tiers table row =
    match first_record (tier_results table row) with
    | Some (method, r) => (Some r, Some method)
    | None => (None, None)
    end
  /\ match first_record (tier_results table row) with
     | Some (method, r) =>
         MatchedRow.match_method (match_row table row) = Some method
         /\ MatchedRow.matched (match_row table row)
            = found (estimate_items.단가 r)
         /\ MatchedRow.단가 (match_row table row) = estimate_items.단가 r
         /\ MatchedRow.status (match_row table row)
            = (if found (estimate_items.단가 r)
               then utf8 "매칭" else utf8 "단가 없음")
         /\ MatchedRow.matched_source_file (match_row table row)
            = Some (estimate_items.source_file r)
         /\ MatchedRow.matched_source_sheet (match_row table row)
            = Some (estimate_items.source_sheet r)
         /\ MatchedRow.matched_file_datetime (match_row table row)
            = Some (estimate_items.file_datetime r)
         /\ MatchedRow.matched_a7_text (match_row table row)
            = estimate_items.a7_text r
     | None =>
         MatchedRow.match_method (match_row table row) = None
         /\ MatchedRow.matched (match_row table row) = false
         /\ MatchedRow.단가 (match_row table row) = None
         /\ MatchedRow.status (match_row table row) = utf8 "단가 없음"
         /\ MatchedRow.matched_source_file (match_row table row) = None
     end.
Proof.
  split; [apply resolve_tiers_first_record|].
  unfold match_row. rewrite resolve_tiers_first_record.
  destruct (first_record _) as [[method r]|]; simpl; [|done].
  by destruct (estimate_items.단가 r).
Qed.

(** *** The candidate list *)

(** C5.  For a request whose item name and spec code are both
    non-empty, the candidate list is made of exactly the price records
    with the same item name and spec code and a known unit price, one
    candidate for each, newest first: the candidates are, in order, the
    price, document, sheet, timestamp and marker of some arrangement of
    those records in descending timestamp.  No tier of the cascade
    enters into it. *)
Theorem candidates_exact_priced_newest_first table row :
  truthy (RequestRow.품명 row) -> truthy (RequestRow.규격 row) ->
  exists rows,
    rows ≡ₚ filter (λ r, estimate_items.품명 r = RequestRow.품명 row
                         ∧ estimate_items.규격 r = Some (RequestRow.규격 row)
                         ∧ estimate_items.단가 r ≠ None) table
    /\ Sorted newest_first rows
    /\ Forall2 (λ r c,
                  Candidate.단가 c = estimate_items.단가 r
                  /\ is_Some (Candidate.단가 c)
                  /\ Candidate.견적서파일 c = estimate_items.source_file r
                  /\ Candidate.시트 c = estimate_items.source_sheet r
                  /\ Candidate.견적날짜 c = estimate_items.file_datetime r
                  /\ Candidate.A7 c = estimate_items.a7_text r)
         rows (MatchedRow.candidates (match_row table row)).
Proof.
  intros Hname Hspec.
  exists (lookup_candidates table (RequestRow.품명 row) (RequestRow.규격 row)).
  split; [apply order_by_permutation|]. split; [apply order_by_sorted|].
  assert (Hc : MatchedRow.candidates (match_row table row)
               = map candidate_of
                   (lookup_candidates table (RequestRow.품명 row)
                      (RequestRow.규격 row))).
  { unfold match_row.
    destruct (truthy (RequestRow.품명 row)), (truthy (RequestRow.규격 row));
      try done.
    simpl. destruct (resolve_tiers table row) as [m method].
    by destruct (m ≫= _) as [[]|]. }
  rewrite Hc.
  assert (Hpriced : Forall (λ r, estimate_items.단가 r ≠ None)
            (lookup_candidates table (RequestRow.품명 row)
               (RequestRow.규격 row))).
  { apply Forall_forall. intros r Hr.
    by apply order_by_elem_of, list_elem_of_filter in Hr as [(_ & _ & Hp) _]. }
  clear Hc. induction Hpriced as [|r rest Hr _ IH]; [constructor|].
  cbn [map]. constructor; [|exact IH].
  cbn [candidate_of Candidate.단가 Candidate.견적서파일 Candidate.시트
         Candidate.견적날짜 Candidate.A7].
  split_and!; try done. by destruct (estimate_items.단가 r).
Qed.

(** *** Fuzzy spec matching *)(** *** Fuzzy spec matching *)

(** C7 (amended).  Fuzzy matching is symmetric when both fuzzy keys are
    non-empty: if one key is a suffix of the other, a request with spec
    [a] matches a price record with spec [b], and a request with spec
    [b] matches a price record with spec [a]. *)
Theorem fuzzy_match_symmetric (ra rb : estimate_items.row) (a b : str) :
  estimate_items.규격 ra = Some a ->
  estimate_items.규격 rb = Some b ->
  normalize_code a ≠ [] ->
  normalize_code b ≠ [] ->
  endswith (normalize_code b) (normalize_code a)
  || endswith (normalize_code a) (normalize_code b) ->
  lookup_latest_price_fuzzy_spec [rb] a = Some rb
  /\ lookup_latest_price_fuzzy_spec [ra] b = Some ra.
Proof.
  intros Ha Hb Hka Hkb Hends.
  assert (Hne : forall s, normalize_code s ≠ [] -> s ≠ []).
  { intros s Hs ->. by apply Hs. }
  assert (Htruthy : forall s : str, s ≠ [] -> truthy s = true).
  { by intros [|??]. }
  unfold lookup_latest_price_fuzzy_spec.
  rewrite !Htruthy by done. simpl.
  rewrite !filter_cons, !filter_nil.
  rewrite !decide_True, !order_by_singleton.
  - simpl. rewrite Ha, Hb. simpl. rewrite !Htruthy by done. simpl.
    rewrite orb_comm in Hends.
    destruct (endswith (normalize_code a) (normalize_code b)
              || endswith (normalize_code b) (normalize_code a)) eqn:E1;
      [|done].
    rewrite orb_comm in E1. by rewrite E1.
  - rewrite Ha. split; [done|]. intros [= ->]. by apply Hka.
  - rewrite Hb. split; [done|]. intros [= ->]. by apply Hkb.
Qed.
End MatchingProps.

(** ** Header location *)

Section HeaderProps.
Context `{Runtime}.

(** A cell that the request header scan takes for the purchase
    quantity column: the canonical label or its synonym. *)
Definition quantity_label (cell : str) : Prop :=
  cell = utf8 "구매량" \/ cell = utf8 "수량".

#[local] Instance quantity_label_dec cell : Decision (quantity_label cell).
Proof. unfold quantity_label. apply _. Defined.

Lemma quantity_labels_differ : utf8 "구매량" ≠ utf8 "수량".
Proof. intros Heq. vm_compute in Heq. discriminate. Qed.

Lemma canonical_label_requested : utf8 "구매량" ∈ REQUEST_HEADERS.
Proof. apply (bool_decide_unpack _). vm_compute. exact I. Qed.

Lemma synonym_label_not_requested : utf8 "수량" ∉ REQUEST_HEADERS.
Proof. apply (bool_decide_unpack _). vm_compute. exact I. Qed.

Lemma request_header_step_kept header_map col_idx cell i :
  header_map !! utf8 "구매량" = Some i ->
  request_header_step header_map col_idx cell !! utf8 "구매량" = Some i.
Proof.
  intros Hi. unfold request_header_step.
  assert (Hfirst :
    (if bool_decide (cell ∈ REQUEST_HEADERS)
        && bool_decide (header_map !! cell = None)
     then <[cell := col_idx]> header_map else header_map)
    !! utf8 "구매량" = Some i).
  { case_match eqn:Hif; [|done].
    apply andb_true_iff in Hif as [_ Hfree%bool_decide_eq_true].
    rewrite lookup_insert_ne; [done|]. intros ->. congruence. }
  rewrite Hfirst.
  rewrite (bool_decide_false (Some i = None)) by done.
  by rewrite andb_false_r.
Qed.

Lemma request_header_step_new header_map col_idx cell :
  header_map !! utf8 "구매량" = None ->
  request_header_step header_map col_idx cell !! utf8 "구매량"
  = if decide (quantity_label cell) then Some col_idx else None.
Proof.
  intros Hnone. unfold request_header_step, quantity_label.
  destruct (decide (cell = utf8 "구매량")) as [->|Hne].
  - rewrite Hnone. rewrite decide_True by (by left).
    rewrite (bool_decide_true (_ ∈ _)) by apply canonical_label_requested.
    rewrite (bool_decide_true (None = None)) by done. cbn [andb].
    rewrite (bool_decide_false (_ = utf8 "수량"))
      by apply quantity_labels_differ.
    cbn [andb]. apply lookup_insert_eq.
  - destruct (decide (cell = utf8 "수량")) as [->|Hne'].
    + rewrite decide_True by (by right).
      rewrite (bool_decide_false (_ ∈ _))
        by apply synonym_label_not_requested.
      cbn [andb]. rewrite Hnone.
      rewrite !bool_decide_true by done. cbn [andb]. apply lookup_insert_eq.
    + rewrite decide_False by tauto.
      rewrite (bool_decide_false (cell = _)) by done.
      rewrite andb_false_l.
      destruct (_ && _); [by rewrite lookup_insert_ne|done].
Qed.

Lemma scan_request_header_quantity col_idx cells header_map :
  scan_header request_header_step col_idx cells header_map !! utf8 "구매량"
  = match header_map !! utf8 "구매량" with
    | Some i => Some i
    | None => (λ found, col_idx + found.1) <$> list_find quantity_label cells
    end.
Proof.
  revert col_idx header_map.
  induction cells as [|cell rest IH]; intros j hm; simpl.
  - by destruct (hm !! _).
  - rewrite IH. destruct (hm !! utf8 "구매량") as [i|] eqn:Hq.
    + by rewrite (request_header_step_kept _ _ _ i).
    + rewrite request_header_step_new by done.
      destruct (decide (quantity_label cell)); simpl.
      * f_equal. lia.
      * destruct (list_find quantity_label rest) as [[k c]|]; simpl; [|done].
        f_equal. lia.
Qed.

(** The purchase quantity column is the first column labelled
    "구매량" or "수량", whichever comes first. *)
Lemma purchase_quantity_column row :
  request_header_map_of_row row !! utf8 "구매량"
  = fst <$> list_find quantity_label (map normalize_text row).
Proof.
  unfold request_header_map_of_row.
  rewrite scan_request_header_quantity, lookup_empty.
  by destruct (list_find _ _) as [[]|].
Qed.
End HeaderProps.

(** ** Data region extraction *)

(** *** The data region, as the specification describes it *)

Section Region.
Context {R Y : Type} (blank : R -> bool).




End Region.

(** *** The loop of the two scans *)

(** What a scan below the header makes of one row: the row is fully
    blank, or it is a data row, which gives a record unless it is
    dropped for its empty item name. *)
Inductive row_class (Y : Type) :=
| Blank
| Data (y : option Y).
Arguments Blank {Y}.
Arguments Data {Y} y.

Section Scan.
Context {R Y : Type} (classify : R -> result (row_class Y)).

(** The control skeleton shared by [iter_estimate_rows] and
    [parse_request_sheet]. *)
Fixpoint scan (data_rows empty_streak : nat) (rows : list R)
    : result (list Y) :=
  match rows with
  | [] => Ok []
  | row :: rest =>
      c ← classify row;
      match c with
      | Data (Some y) => (y ::.) <$> scan (S data_rows) 0 rest
      | Data None => scan (S data_rows) 0 rest
      | Blank =>
          if bool_decide (0 < data_rows) then
            if bool_decide (2 ≤ S empty_streak) then Ok []
            else scan data_rows (S empty_streak) rest
          else scan data_rows empty_streak rest
      end
  end.

Context (blank : R -> bool) (record : R -> result (option Y)).

(** [classify] treats [row] as [blank] and [record] describe it. *)
Definition agrees (row : R) : Prop :=
  classify row = if blank row then Ok Blank else Data <$> record row.






End Scan.

Section ExtractionProps.
Context `{Runtime}.

(** The cell of [row] in the column that the header map gives to
    [label]; an empty cell when the map has no such column or the row
    ends before it. *)
Definition header_cell (header_map : gmap str nat) (row : list value)
    (label : str) : value :=
  default VNone (col_idx ← header_map !! label; row !! col_idx).

(** The cells of [row] under [headers]. *)
Definition cells_of (headers : list str) (header_map : gmap str nat)
    (row : list value) : gmap str value :=
  list_to_map ((λ label, (label, header_cell header_map row label)) <$> headers).

(** Every column of [headers] is empty after normalization. *)
Definition fully_blank (headers : list str) (header_map : gmap str nat)
    (row : list value) : bool :=
  forallb (λ label,
             bool_decide (normalize_text (header_cell header_map row label) = []))
          headers.

(** Every column of the header map lies within [row]. *)
Definition within (header_map : gmap str nat) (row : list value) : Prop :=
  map_Forall (λ _ col_idx, col_idx < length row) header_map.

(** The request record of a data row: none when the item name is empty
    after normalization; otherwise the normalized texts and the
    purchase quantity as a number. *)
Definition request_record (path sheet_name : str) (header_map : gmap str nat)
    (row : list value) : result (option RequestRow.t) :=
  let cell := header_cell header_map row in
  if bool_decide (normalize_text (cell (utf8 "품명")) = []) then Ok None
  else
    quantity ← to_float (cell (utf8 "구매량"));
    Ok (Some {|
      RequestRow.source_file := path;
      RequestRow.source_sheet := sheet_name;
      RequestRow.품명 := normalize_text (cell (utf8 "품명"));
      RequestRow.규격 := normalize_text (cell (utf8 "규격"));
      RequestRow.제조사 := normalize_text (cell (utf8 "제조사"));
      RequestRow.단위 := normalize_text (cell (utf8 "단위"));
      RequestRow.구매량 := quantity;
    |}).

(** The two scans of the source classify a row as follows. *)
Definition estimate_class (header_map : gmap str nat) (row : list value)
    : result (row_class (gmap str value)) :=
  values ← estimate_values header_map row;
  Ok (if has_any REQUIRED_HEADERS values then Data (Some values) else Blank).

Definition request_class (path sheet_name : str) (header_map : gmap str nat)
    (row : list value) : result (row_class RequestRow.t) :=
  values ← request_values header_map row;
  if has_any REQUEST_HEADERS values
  then Data <$> request_row_of path sheet_name values
  else Ok Blank.

Lemma iter_estimate_rows_from_scan header_map data_rows empty_streak rows :
  iter_estimate_rows_from header_map data_rows empty_streak rows
  = scan (estimate_class header_map) data_rows empty_streak rows.
Proof.
  revert data_rows empty_streak.
  induction rows as [|row rest IH]; intros n e; [done|].
  cbn [iter_estimate_rows_from scan]. unfold estimate_class.
  destruct (estimate_values header_map row) as [values|]; [|done].
  cbn [mbind result_bind].
  destruct (has_any REQUIRED_HEADERS values); rewrite ?IH; done.
Qed.

Lemma parse_request_rows_from_scan path sheet_name header_map
    data_rows empty_streak rows :
  parse_request_rows_from path sheet_name header_map data_rows empty_streak rows
  = scan (request_class path sheet_name header_map) data_rows empty_streak rows.
Proof.
  revert data_rows empty_streak.
  induction rows as [|row rest IH]; intros n e; [done|].
  cbn [parse_request_rows_from scan]. unfold request_class.
  destruct (request_values header_map row) as [values|]; [|done].
  cbn [mbind result_bind].
  destruct (has_any REQUEST_HEADERS values); rewrite ?IH; [|done].
  by destruct (request_row_of path sheet_name values) as [[r|]|].
Qed.


Lemma mapM_Ok_fmap {A B} (f : A -> result B) (g : A -> B) (l : list A) :
  Forall (λ x, f x = Ok (g x)) l -> mapM f l = Ok (g <$> l).
Proof.
  induction 1 as [|x l Hx _ IH]; [done|].
  cbn [mapM]. rewrite Hx, IH. done.
Qed.

Lemma NoDup_REQUIRED_HEADERS : NoDup REQUIRED_HEADERS.
Proof. apply (bool_decide_unpack _). by vm_compute. Qed.

Lemma NoDup_REQUEST_HEADERS : NoDup REQUEST_HEADERS.
Proof. apply (bool_decide_unpack _). by vm_compute. Qed.

Lemma cells_of_lookup headers header_map row label :
  NoDup headers -> label ∈ headers ->
  cells_of headers header_map row !!! label = header_cell header_map row label.
Proof.
  intros Hnodup Hin. rewrite lookup_total_alt. unfold cells_of.
  erewrite elem_of_list_to_map_1; [done| |].
  - by rewrite <- list_fmap_compose, list_fmap_id.
  - apply list_elem_of_fmap. by exists label.
Qed.

Lemma estimate_values_cells header_map row :
  (forall label, label ∈ REQUIRED_HEADERS -> is_Some (header_map !! label)) ->
  estimate_values header_map row
  = Ok (cells_of REQUIRED_HEADERS header_map row).
Proof.
  intros Hall. unfold estimate_values, cells_of.
  rewrite (mapM_Ok_fmap _ (λ label, (label, header_cell header_map row label)));
    [done|].
  apply Forall_forall. intros key Hin. unfold header_cell.
  destruct (Hall key Hin) as [col_idx ->]. done.
Qed.

Lemma request_values_cells header_map row :
  within header_map row ->
  request_values header_map row
  = Ok (cells_of REQUEST_HEADERS header_map row).
Proof.
  intros Hwithin. unfold request_values, cells_of.
  rewrite (mapM_Ok_fmap _ (λ label, (label, header_cell header_map row label)));
    [done|].
  apply Forall_forall. intros key _. unfold header_cell.
  destruct (header_map !! key) as [col_idx|] eqn:Hcol; [|done].
  destruct (lookup_lt_is_Some_2 row col_idx (Hwithin key col_idx Hcol))
    as [v Hv].
  rewrite Hv. cbn [mbind option_bind]. by rewrite Hv.
Qed.

Lemma has_any_cells headers header_map row :
  NoDup headers ->
  has_any headers (cells_of headers header_map row)
  = negb (fully_blank headers header_map row).
Proof.
  intros Hnodup. unfold has_any, fully_blank.
  assert (Hcells : Forall (λ label,
    cells_of headers header_map row !!! label
    = header_cell header_map row label) headers).
  { apply Forall_forall. intros label Hin. by apply cells_of_lookup. }
  revert Hcells. generalize (cells_of headers header_map row).
  intros values Hcells. clear Hnodup.
  induction Hcells as [|label rest Hlabel _ IH]; [done|].
  cbn [existsb forallb]. rewrite Hlabel, IH, negb_andb.
  by destruct (normalize_text (header_cell header_map row label)).
Qed.

Lemma request_row_of_cells path sheet_name header_map row :
  request_row_of path sheet_name (cells_of REQUEST_HEADERS header_map row)
  = request_record path sheet_name header_map row.
Proof.
  unfold request_row_of, request_record.
  rewrite !cells_of_lookup
    by (apply NoDup_REQUEST_HEADERS || (apply (bool_decide_unpack _); by vm_compute)).
  by destruct (normalize_text (header_cell header_map row (utf8 "품명"))).
Qed.


Lemma request_class_agrees path sheet_name header_map row :
  within header_map row ->
  agrees (request_class path sheet_name header_map)
    (fully_blank REQUEST_HEADERS header_map)
    (request_record path sheet_name header_map) row.
Proof.
  intros Hwithin. unfold agrees, request_class.
  rewrite request_values_cells by done. cbn [mbind result_bind].
  rewrite has_any_cells by apply NoDup_REQUEST_HEADERS.
  destruct (fully_blank _ _ _); [done|].
  cbn [negb]. by rewrite request_row_of_cells.
Qed.

End ExtractionProps.


(** ** Runs on concrete histories *)

Section Runs.
#[local] Existing Instance Reference.runtime.
#[local] Existing Instance Reference.sqlite.

(** A quotation line of the given name, spec and unit price, from a
    document dated 2024-01-[day]. *)
Definition quote (name spec : string) (day : Z) (price : option float)
    : EstimateRow.t := {|
  EstimateRow.source_file := utf8 "견적서.xlsx";
  EstimateRow.source_sheet := utf8 "Sheet1";
  EstimateRow.file_datetime :=
    {| year := 2024; month := 1; day := day;
       hour := 9; minute := 0; second := 0; microsecond := 0 |};
  EstimateRow.a7_text := utf8 "A7";
  EstimateRow.품명 := utf8 name;
  EstimateRow.규격 := utf8 spec;
  EstimateRow.단위 := utf8 "EA";
  EstimateRow.수량 := Some 1%float;
  EstimateRow.단가 := price;
  EstimateRow.금액 := price;
|}.

Definition history (rows : list EstimateRow.t) : list estimate_items.row :=
  (insert_rows [] rows).1.

Definition request (name spec : string) (quantity : option float)
    : RequestRow.t := {|
  RequestRow.source_file := utf8 "견적의뢰.xlsx";
  RequestRow.source_sheet := utf8 "Sheet1";
  RequestRow.품명 := utf8 name;
  RequestRow.규격 := utf8 spec;
  RequestRow.제조사 := [];
  RequestRow.단위 := utf8 "EA";
  RequestRow.구매량 := quantity;
|}.

(** The end-to-end scenarios of the specification. *)
Example scenario_exact :
  let result :=
    match_row (history [quote "BoltM6" "SS304-10MM" 1 (Some 100%float);
                        quote "BoltM6" "SS304-10MM" 2 (Some 120%float)])
      (request "BoltM6" "SS304-10MM" (Some 3%float)) in
  MatchedRow.단가 result = Some 120%float
  /\ MatchedRow.금액 result = Some 360%float
  /\ MatchedRow.match_method result = Some (utf8 "품명+규격")
  /\ map Candidate.단가 (MatchedRow.candidates result)
     = [Some 120%float; Some 100%float].
Proof. vm_compute. repeat split. Qed.

Example scenario_fuzzy :
  let result :=
    match_row (history [quote "Valve" "ABC-0012-REV2" 1 (Some 50%float)])
      (request "Valve2" "0012-REV2" None) in
  MatchedRow.단가 result = Some 50%float
  /\ MatchedRow.금액 result = None
  /\ MatchedRow.match_method result = Some (utf8 "규격-유사").
Proof. vm_compute. repeat split. Qed.

Example scenario_no_history :
  let result :=
    match_row (history [quote "Valve" "ABC-0012-REV2" 1 (Some 50%float)])
      (request "Pump" "" (Some 1%float)) in
  MatchedRow.matched result = false
  /\ MatchedRow.단가 result = None
  /\ MatchedRow.match_method result = None
  /\ MatchedRow.status result = utf8 "단가 없음".
Proof. vm_compute. repeat split. Qed.

(** C1, counterexample.  The exact tier returns a record without a unit
    price and the spec-only tier would return a record priced 50; the
    result has no price and is labelled with the exact tier. *)
Lemma priceless_exact_match_ends_resolution :
  lookup_latest_price
    (history [quote "A" "X" 1 None; quote "B" "X" 2 (Some 50%float)])
    (utf8 "A") (utf8 "X")
  = Some (insert_values (quote "A" "X" 1 None))
  /\ lookup_latest_price_by_spec
       (history [quote "A" "X" 1 None; quote "B" "X" 2 (Some 50%float)])
       (utf8 "X")
     = Some (insert_values (quote "B" "X" 2 (Some 50%float)))
  /\ MatchedRow.matched
       (match_row
          (history [quote "A" "X" 1 None; quote "B" "X" 2 (Some 50%float)])
          (request "A" "X" (Some 2%float))) = false
  /\ MatchedRow.단가
       (match_row
          (history [quote "A" "X" 1 None; quote "B" "X" 2 (Some 50%float)])
          (request "A" "X" (Some 2%float))) = None
  /\ MatchedRow.match_method
       (match_row
          (history [quote "A" "X" 1 None; quote "B" "X" 2 (Some 50%float)])
          (request "A" "X" (Some 2%float))) = Some (utf8 "품명+규격").
Proof. vm_compute. repeat split. Qed.

(** C3, the run that departs from the claim.  The request has an empty
    spec code, the history holds a line of the same name with an empty
    spec code: the exact lookup is made, returns that line, and the
    result is labelled with the exact tier, while the candidate list,
    which is guarded by both fields, is empty. *)
Lemma exact_tier_taken_with_empty_spec :
  MatchedRow.match_method
    (match_row (history [quote "A" "" 1 (Some 10%float)])
       (request "A" "" (Some 2%float))) = Some (utf8 "품명+규격")
  /\ MatchedRow.단가
       (match_row (history [quote "A" "" 1 (Some 10%float)])
          (request "A" "" (Some 2%float))) = Some 10%float
  /\ MatchedRow.candidates
       (match_row (history [quote "A" "" 1 (Some 10%float)])
          (request "A" "" (Some 2%float))) = [].
Proof. vm_compute. repeat split. Qed.

(** C5, witness: two quotations under one exact key, and one more
    without a price. *)
Lemma candidates_exact_priced_newest_first_witness :
  let table :=
    history [quote "BoltM6" "SS304-10MM" 1 (Some 100%float);
             quote "BoltM6" "SS304-10MM" 3 None;
             quote "BoltM6" "SS304-10MM" 2 (Some 120%float)] in
  let row := request "BoltM6" "SS304-10MM" (Some 3%float) in
  (exists rows,
     rows ≡ₚ filter (λ r, estimate_items.품명 r = RequestRow.품명 row
                          ∧ estimate_items.규격 r = Some (RequestRow.규격 row)
                          ∧ estimate_items.단가 r ≠ None) table
     /\ Sorted newest_first rows
     /\ Forall2 (λ r c,
                   Candidate.단가 c = estimate_items.단가 r
                   /\ is_Some (Candidate.단가 c)
                   /\ Candidate.견적서파일 c = estimate_items.source_file r
                   /\ Candidate.시트 c = estimate_items.source_sheet r
                   /\ Candidate.견적날짜 c = estimate_items.file_datetime r
                   /\ Candidate.A7 c = estimate_items.a7_text r)
          rows (MatchedRow.candidates (match_row table row)))
  /\ map (λ c, (Candidate.단가 c, Candidate.견적날짜 c))
       (MatchedRow.candidates (match_row table row))
     = [(Some 120%float, utf8 "2024-01-02T09:00:00");
        (Some 100%float, utf8 "2024-01-01T09:00:00")].
Proof.
  intros table row. split.
  - apply (candidates_exact_priced_newest_first table row).
    + vm_compute. exact I.
    + vm_compute. exact I.
  - vm_compute. reflexivity.
Defined.

(** C7, witness: a spec code written with and without its prefix. *)
Lemma fuzzy_match_symmetric_witness :
  lookup_latest_price_fuzzy_spec
    [insert_values (quote "Valve" "ABC-0012-REV2" 1 (Some 50%float))]
    (utf8 "0012-rev2")
  = Some (insert_values (quote "Valve" "ABC-0012-REV2" 1 (Some 50%float)))
  /\ lookup_latest_price_fuzzy_spec
       [insert_values (quote "Valve" "0012-rev2" 2 None)]
       (utf8 "ABC-0012-REV2")
     = Some (insert_values (quote "Valve" "0012-rev2" 2 None)).
Proof.
  apply (fuzzy_match_symmetric
           (insert_values (quote "Valve" "0012-rev2" 2 None))
           (insert_values (quote "Valve" "ABC-0012-REV2" 1 (Some 50%float)))
           (utf8 "0012-rev2") (utf8 "ABC-0012-REV2")).
  - reflexivity.
  - reflexivity.
  - vm_compute. discriminate.
  - vm_compute. discriminate.
  - vm_compute. exact I.
Defined.

(** C7, counterexample.  The fuzzy key of "-" is empty, so it is a
    suffix of the fuzzy key of "A"; yet a request with spec "-" does
    not match a record with spec "A", nor a request with spec "A" a
    record with spec "-". *)
Lemma fuzzy_suffix_without_match :
  endswith (normalize_code (utf8 "A")) (normalize_code (utf8 "-")) = true
  /\ lookup_latest_price_fuzzy_spec
       [insert_values (quote "Valve" "A" 1 (Some 50%float))] (utf8 "-")
     = None
  /\ lookup_latest_price_fuzzy_spec
       [insert_values (quote "Valve" "-" 1 (Some 50%float))] (utf8 "A")
     = None.
Proof. vm_compute. repeat split. Qed.

(** *** Sheets *)

(** An empty cell, as pandas reads it. *)
Definition empty : value := VFloat PrimFloat.nan.

Definition text (s : string) : value := VStr (utf8 s).

(** A request sheet: a title row and the header row, then two blank
    rows, a data row, one blank row, a data row, two blank rows and a
    note. *)
Definition request_above : DataFrame :=
  [ [text "견적 의뢰서"; empty; empty; empty; empty];
    [text "품 명"; text "규격"; text "제조사"; text "단위"; text "구매량"] ].


Definition blank5 : list value := [empty; empty; empty; empty; empty].

Definition bolt_row : list value :=
  [text "볼트"; text "M6"; text "가나"; text "EA"; VInt 3].

Definition nut_row : list value :=
  [text "너트"; text "M 6"; empty; text "EA"; VFloat 5%float].

Definition note_row : list value :=
  [text "비고"; empty; empty; empty; empty].

(** A row with data and no item name. *)
Definition nameless_row : list value :=
  [empty; text "M8"; empty; text "EA"; VInt 2].

Definition bolt_record : RequestRow.t := {|
  RequestRow.source_file := utf8 "견적의뢰.xlsx";
  RequestRow.source_sheet := utf8 "Sheet1";
  RequestRow.품명 := utf8 "볼트";
  RequestRow.규격 := utf8 "M6";
  RequestRow.제조사 := utf8 "가나";
  RequestRow.단위 := utf8 "EA";
  RequestRow.구매량 := Some 3%float;
|}.

Definition nut_record : RequestRow.t := {|
  RequestRow.source_file := utf8 "견적의뢰.xlsx";
  RequestRow.source_sheet := utf8 "Sheet1";
  RequestRow.품명 := utf8 "너트";
  RequestRow.규격 := utf8 "M6";
  RequestRow.제조사 := [];
  RequestRow.단위 := utf8 "EA";
  RequestRow.구매량 := Some 5%float;
|}.

(** Two blank rows, a data row, one blank row, a row without an item
    name, a data row, two blank rows and a note. *)
Example request_sheet_run :
  parse_request_sheet (utf8 "견적의뢰.xlsx") (utf8 "Sheet1")
    (request_above ++ [blank5; blank5]
       ++ bolt_row :: [blank5; nameless_row; nut_row]
       ++ blank5 :: blank5 :: [note_row])
  = Ok [bolt_record; nut_record].
Proof. vm_compute. reflexivity. Qed.

(** A single blank row is crossed wherever it stands. *)
Example request_sheet_single_gaps :
  parse_request_sheet (utf8 "견적의뢰.xlsx") (utf8 "Sheet1")
    (request_above ++ [bolt_row; blank5; nut_row; blank5; note_row])
  = Ok [bolt_record; nut_record;
        {| RequestRow.source_file := utf8 "견적의뢰.xlsx";
           RequestRow.source_sheet := utf8 "Sheet1";
           RequestRow.품명 := utf8 "비고";
           RequestRow.규격 := [];
           RequestRow.제조사 := [];
           RequestRow.단위 := [];
           RequestRow.구매량 := None |}].
Proof. vm_compute. reflexivity. Qed.




(** C4, the run that departs from the claim.  The header row carries
    "수량" in column 4 and the canonical "구매량" in column 5; the scan
    records column 4 as the purchase quantity column and the parsed
    request takes its quantity from there. *)
Lemma synonym_left_of_canonical_label_wins :
  request_header_map_of_row
    [text "품명"; text "규격"; text "제조사"; text "단위";
     text "수량"; text "구매량"] !! utf8 "구매량" = Some 4
  /\ (map RequestRow.구매량 <$>
        parse_request_sheet (utf8 "견적의뢰.xlsx") (utf8 "Sheet1")
          [ [text "품명"; text "규격"; text "제조사"; text "단위";
             text "수량"; text "구매량"];
            [text "볼트"; text "M6"; text "가나"; text "EA";
             VInt 10; VInt 3] ])
     = Ok [Some 10%float].
Proof. split; vm_compute; reflexivity. Qed.

(** A price document whose anchor cell has blanks around its text. *)
Definition empty6 : list value := [empty; empty; empty; empty; empty; empty].

Definition price_sheet : DataFrame :=
  replicate 6 empty6
  ++ [ [text "  납품장소: 본사 "; empty; empty; empty; empty; empty];
       [text "품명"; text "규격"; text "단위"; text "수량"; text "단가";
        text "금액"];
       [text "볼트"; text "M6"; text "EA"; VInt 1; VInt 100; VInt 100] ].

(** C9, counterexample.  The anchor cell holds text with blanks around
    it; the result of matching against the history built from the sheet
    reports the text without them. *)
Lemma free_text_marker_is_stripped :
  price_sheet !! 6 ≫= (.!! 0) = Some (VStr (utf8 "  납품장소: 본사 "))
  /\ (rows ← parse_estimate_sheet (utf8 "견적서.xlsx") (utf8 "Sheet1")
               (Ok {| year := 2024; month := 1; day := 1;
                      hour := 9; minute := 0; second := 0;
                      microsecond := 0 |})
               price_sheet;
      Ok (MatchedRow.matched_a7_text
            (match_row (history rows) (request "볼트" "M6" None))))
     = Ok (Some (utf8 "납품장소: 본사"))
  /\ utf8 "납품장소: 본사" ≠ utf8 "  납품장소: 본사 ".
Proof.
  split; [vm_compute; reflexivity|].
  split; [vm_compute; reflexivity|].
  intros Heq. vm_compute in Heq. discriminate.
Qed.
End Runs.

(** * Further properties of the code *)

(** ** Header rows *)

Section HeaderRowProps.
Context `{Runtime}.

Lemma scan_header_step_lookup col_idx cells header_map label :
  scan_header header_step col_idx cells header_map !! label
  = match header_map !! label with
    | Some i => Some i
    | None =>
        if decide (label ∈ REQUIRED_HEADERS)
        then (λ found, col_idx + found.1) <$> list_find (label =.) cells
        else None
    end.
Proof.
  revert col_idx header_map.
  induction cells as [|cell rest IH]; intros j hm; simpl.
  - destruct (hm !! label); [done|]. by case_decide.
  - rewrite IH. unfold header_step.
    destruct (decide (label = cell)) as [<-|Hne].
    + destruct (hm !! label) as [i|] eqn:Hl.
      * rewrite (bool_decide_false (Some i = None)) by done.
        by rewrite andb_false_r, Hl.
      * rewrite (bool_decide_true (None = None)) by done.
        rewrite andb_true_r. destruct (decide (label ∈ REQUIRED_HEADERS)).
        -- rewrite bool_decide_true by done. rewrite lookup_insert_eq.
           simpl. f_equal. lia.
        -- rewrite bool_decide_false by done. by rewrite Hl.
    + assert (Hsame :
        (if bool_decide (cell ∈ REQUIRED_HEADERS)
            && bool_decide (hm !! cell = None)
         then <[cell := j]> hm else hm) !! label = hm !! label).
      { destruct (_ && _); [|done].
        rewrite lookup_insert_ne; [done|]. by intros ->. }
      rewrite Hsame. destruct (hm !! label); [done|].
      case_decide; [|done].
      destruct (list_find (label =.) rest) as [[k c]|]; simpl; [|done].
      f_equal. lia.
Qed.

(** X1.  The header map of a row sends each required label to the first
    column whose normalized text is that label, and holds nothing else. *)
Theorem header_map_first_occurrence row label :
  header_map_of_row row !! label
  = if decide (label ∈ REQUIRED_HEADERS)
    then fst <$> list_find (label =.) (map normalize_text row)
    else None.
Proof.
  unfold header_map_of_row.
  rewrite scan_header_step_lookup, lookup_empty.
  case_decide; [|done]. by destruct (list_find _ _) as [[]|].
Qed.

Lemma has_all_required row :
  has_all REQUIRED_HEADERS (header_map_of_row row) = true
  <-> forall label, label ∈ REQUIRED_HEADERS ->
        label ∈ map normalize_text row.
Proof.
  unfold has_all. rewrite forallb_forall.
  split.
  - intros Hall label Hin.
    specialize (Hall label (proj1 (list_elem_of_In _ _) Hin)).
    apply bool_decide_eq_true in Hall as [i Hi].
    rewrite header_map_first_occurrence, decide_True in Hi by done.
    destruct (list_find _ _) as [[k c]|] eqn:Hfind; [|done].
    apply list_find_Some in Hfind as (Hk & -> & _).
    by apply list_elem_of_lookup_2 in Hk.
  - intros Hall label Hin%list_elem_of_In.
    apply bool_decide_eq_true.
    rewrite header_map_first_occurrence, decide_True by done.
    destruct (list_find (label =.) (map normalize_text row))
      as [[k c]|] eqn:Hfind; [by eexists|].
    apply list_find_None in Hfind.
    rewrite Forall_forall in Hfind. by destruct (Hfind label (Hall label Hin)).
Qed.

Lemma find_header_row_from_Some row_idx rows i header_map :
  find_header_row_from row_idx rows = Some (i, header_map) ->
  exists k row,
    i = row_idx + k /\ rows !! k = Some row
    /\ header_map = header_map_of_row row
    /\ has_all REQUIRED_HEADERS header_map = true
    /\ forall k' row', k' < k -> rows !! k' = Some row' ->
         has_all REQUIRED_HEADERS (header_map_of_row row') = false.
Proof.
  revert row_idx. induction rows as [|row rest IH]; intros j;
    cbn [find_header_row_from]; [done|].
  destruct (has_all REQUIRED_HEADERS (header_map_of_row row)) eqn:Hall.
  - intros Heq. simplify_eq. exists 0, row.
    split_and!; [lia|done..|]. intros k' row' Hlt. lia.
  - intros (k & r & -> & Hk & -> & Hok & Hbefore)%IH.
    exists (S k), r. split_and!; [lia|done..|].
    intros [|k'] row' Hlt Hrow'.
    + by injection Hrow' as <-.
    + apply (Hbefore k'); [lia|done].
Qed.

Lemma find_header_row_from_None row_idx rows :
  find_header_row_from row_idx rows = None ->
  Forall (λ row, has_all REQUIRED_HEADERS (header_map_of_row row) = false) rows.
Proof.
  revert row_idx. induction rows as [|row rest IH]; intros j;
    cbn [find_header_row_from]; [done|].
  destruct (has_all REQUIRED_HEADERS (header_map_of_row row)) eqn:Hall;
    [done|].
  intros Hrest. constructor; [done|]. by apply (IH (S j)).
Qed.

(** X2.  [find_header_row] returns the first row that carries every
    required label, with that row's header map; every row above it
    lacks a label.  It returns nothing exactly when every row of the
    sheet lacks a label, an empty sheet included. *)
Theorem find_header_row_first_complete_row df :
  match find_header_row df with
  | Some (row_idx, header_map) =>
      exists row,
        df !! row_idx = Some row
        /\ header_map = header_map_of_row row
        /\ (forall label, label ∈ REQUIRED_HEADERS ->
              label ∈ map normalize_text row)
        /\ forall above row', above < row_idx -> df !! above = Some row' ->
             exists label, label ∈ REQUIRED_HEADERS
                           /\ label ∉ map normalize_text row'
  | None =>
      forall row, row ∈ df ->
        exists label, label ∈ REQUIRED_HEADERS
                      /\ label ∉ map normalize_text row
  end.
Proof.
  assert (Hlacks : forall row,
    has_all REQUIRED_HEADERS (header_map_of_row row) = false ->
    exists label, label ∈ REQUIRED_HEADERS
                  /\ label ∉ map normalize_text row).
  { intros row Hfalse.
    destruct (decide (Exists (λ label, label ∉ map normalize_text row)
                        REQUIRED_HEADERS)) as [Hex|Hnone].
    - apply Exists_exists in Hex as (label & ? & ?). by exists label.
    - apply not_Exists_Forall in Hnone; [|apply _].
      rewrite Forall_forall in Hnone.
      assert (Htrue : has_all REQUIRED_HEADERS (header_map_of_row row) = true).
      { apply has_all_required. intros label Hin.
        specialize (Hnone label Hin). simpl in Hnone.
        by destruct (decide (label ∈ map normalize_text row)). }
      congruence. }
  unfold find_header_row.
  destruct (find_header_row_from 0 df) as [[i hm]|] eqn:Hfind.
  - apply find_header_row_from_Some in Hfind
      as (k & row & -> & Hk & -> & Hok & Hbefore).
    exists row. repeat split; try done.
    + by apply has_all_required.
    + intros above row' Hlt Hrow. apply Hlacks. by apply (Hbefore above).
  - apply find_header_row_from_None in Hfind.
    rewrite Forall_forall in Hfind. intros row Hin. by apply Hlacks, Hfind.
Qed.
#[local] Existing Instance quantity_label_dec.

Lemma scan_request_header_lookup col_idx cells header_map label :
  label ≠ utf8 "구매량" ->
  scan_header request_header_step col_idx cells header_map !! label
  = match header_map !! label with
    | Some i => Some i
    | None =>
        if decide (label ∈ REQUEST_HEADERS)
        then (λ found, col_idx + found.1) <$> list_find (label =.) cells
        else None
    end.
Proof.
  intros Hlabel. revert col_idx header_map.
  induction cells as [|cell rest IH]; intros j hm; cbn [scan_header].
  - destruct (hm !! label); [done|]. by case_decide.
  - rewrite IH.
    assert (Hstep : request_header_step hm j cell !! label
      = (if bool_decide (cell ∈ REQUEST_HEADERS)
            && bool_decide (hm !! cell = None)
         then <[cell := j]> hm else hm) !! label).
    { unfold request_header_step. destruct (bool_decide (cell = _) && _);
        [|done]. by rewrite lookup_insert_ne. }
    rewrite Hstep. clear Hstep.
    destruct (decide (label = cell)) as [<-|Hne].
    + destruct (hm !! label) as [i|] eqn:Hl.
      * rewrite (bool_decide_false (Some i = None)) by done.
        by rewrite andb_false_r, Hl.
      * rewrite (bool_decide_true (None = None)) by done.
        rewrite andb_true_r. destruct (decide (label ∈ REQUEST_HEADERS)).
        -- rewrite bool_decide_true by done. rewrite lookup_insert_eq.
           cbn [list_find]. rewrite decide_True by done.
           simpl. f_equal. lia.
        -- rewrite bool_decide_false by done. by rewrite Hl.
    + assert (Hsame :
        (if bool_decide (cell ∈ REQUEST_HEADERS)
            && bool_decide (hm !! cell = None)
         then <[cell := j]> hm else hm) !! label = hm !! label).
      { destruct (_ && _); [|done].
        rewrite lookup_insert_ne; [done|]. by intros ->. }
      rewrite Hsame. destruct (hm !! label); [done|].
      case_decide; [|done].
      cbn [list_find]. rewrite decide_False by done.
      destruct (list_find (label =.) rest) as [[k c]|]; simpl; [|done].
      f_equal. lia.
Qed.

(** X3.  The header map of a request row: the purchase quantity key
    goes to the first column labelled "구매량" or "수량"; each of the
    other request labels goes to the first column whose normalized text
    is that label; the map holds nothing else ("수량" is never a key). *)
Theorem request_header_map_lookup row label :
  request_header_map_of_row row !! label
  = if decide (label = utf8 "구매량")
    then fst <$> list_find quantity_label (map normalize_text row)
    else if decide (label ∈ REQUEST_HEADERS)
    then fst <$> list_find (label =.) (map normalize_text row)
    else None.
Proof.
  destruct (decide (label = utf8 "구매량")) as [->|Hne].
  - apply purchase_quantity_column.
  - unfold request_header_map_of_row.
    rewrite scan_request_header_lookup, lookup_empty by done.
    case_decide; [|done]. by destruct (list_find _ _) as [[]|].
Qed.

(** A row that can serve as the header of a request sheet. *)
Definition request_labels_present (row : list value) : Prop :=
  (forall label, label ∈ REQUEST_HEADERS -> label ≠ utf8 "구매량" ->
     label ∈ map normalize_text row)
  /\ exists cell, cell ∈ map normalize_text row /\ quantity_label cell.

Definition request_header_ok (row : list value) : bool :=
  has_all (filter (λ h, h ≠ utf8 "구매량") REQUEST_HEADERS)
    (request_header_map_of_row row)
  && bool_decide (is_Some (request_header_map_of_row row !! utf8 "구매량")).

Lemma request_header_ok_spec row :
  request_header_ok row = true <-> request_labels_present row.
Proof.
  unfold request_header_ok, request_labels_present, has_all.
  rewrite andb_true_iff, forallb_forall, bool_decide_eq_true.
  rewrite purchase_quantity_column.
  split; intros [Hall Hq]; split.
  - intros label Hin Hne.
    assert (Hf : label ∈ filter (λ h, h ≠ utf8 "구매량") REQUEST_HEADERS).
    { by apply list_elem_of_filter. }
    specialize (Hall label (proj1 (list_elem_of_In _ _) Hf)).
    apply bool_decide_eq_true in Hall as [i Hi].
    rewrite request_header_map_lookup in Hi.
    rewrite decide_False, decide_True in Hi by done.
    destruct (list_find _ _) as [[k c]|] eqn:Hfind; [|done].
    apply list_find_Some in Hfind as (Hk & -> & _).
    by apply list_elem_of_lookup_2 in Hk.
  - destruct Hq as [i Hi].
    destruct (list_find _ _) as [[k c]|] eqn:Hfind; [|done].
    apply list_find_Some in Hfind as (Hk & Hc & _).
    exists c. split; [|done]. by apply list_elem_of_lookup_2 in Hk.
  - intros label Hin%list_elem_of_In.
    apply list_elem_of_filter in Hin as [Hne Hin].
    apply bool_decide_eq_true.
    rewrite request_header_map_lookup.
    rewrite decide_False, decide_True by done.
    destruct (list_find (label =.) (map normalize_text row))
      as [[k c]|] eqn:Hfind; [by eexists|].
    apply list_find_None in Hfind. rewrite Forall_forall in Hfind.
    by destruct (Hfind label (Hall label Hin Hne)).
  - destruct Hq as (cell & Hin & Hcell).
    destruct (list_find quantity_label (map normalize_text row))
      as [[k c]|] eqn:Hfind; [by eexists|].
    apply list_find_None in Hfind. rewrite Forall_forall in Hfind.
    by destruct (Hfind cell Hin).
Qed.

Lemma find_request_header_row_from_Some row_idx rows i header_map :
  find_request_header_row_from row_idx rows = Some (i, header_map) ->
  exists k row,
    i = row_idx + k /\ rows !! k = Some row
    /\ header_map = request_header_map_of_row row
    /\ request_header_ok row = true
    /\ forall k' row', k' < k -> rows !! k' = Some row' ->
         request_header_ok row' = false.
Proof.
  revert row_idx. induction rows as [|row rest IH]; intros j;
    cbn [find_request_header_row_from]; [done|].
  fold (request_header_ok row).
  destruct (request_header_ok row) eqn:Hok.
  - intros Heq. simplify_eq. exists 0, row.
    split_and!; [lia|done..|]. intros k' row' Hlt. lia.
  - intros (k & r & -> & Hk & -> & Hok' & Hbefore)%IH.
    exists (S k), r. split_and!; [lia|done..|].
    intros [|k'] row' Hlt Hrow'.
    + by injection Hrow' as <-.
    + apply (Hbefore k'); [lia|done].
Qed.

Lemma find_request_header_row_from_None row_idx rows :
  find_request_header_row_from row_idx rows = None ->
  Forall (λ row, request_header_ok row = false) rows.
Proof.
  revert row_idx. induction rows as [|row rest IH]; intros j;
    cbn [find_request_header_row_from]; [done|].
  fold (request_header_ok row).
  destruct (request_header_ok row) eqn:Hok; [done|].
  intros Hrest. constructor; [done|]. by apply (IH (S j)).
Qed.

(** X4.  [find_request_header_row] returns the first row that carries
    "품명", "규격", "제조사" and "단위" and a purchase quantity label
    ("구매량" or "수량"), with that row's header map; no row above it
    does.  It returns nothing exactly when no row of the sheet does. *)
Theorem find_request_header_row_first_complete_row df :
  match find_request_header_row df with
  | Some (row_idx, header_map) =>
      exists row,
        df !! row_idx = Some row
        /\ header_map = request_header_map_of_row row
        /\ request_labels_present row
        /\ forall above row', above < row_idx -> df !! above = Some row' ->
             ~ request_labels_present row'
  | None => forall row, row ∈ df -> ~ request_labels_present row
  end.
Proof.
  assert (Hnot : forall row,
    request_header_ok row = false -> ~ request_labels_present row).
  { intros row Hfalse Hp%request_header_ok_spec. congruence. }
  unfold find_request_header_row.
  destruct (find_request_header_row_from 0 df) as [[i hm]|] eqn:Hfind.
  - apply find_request_header_row_from_Some in Hfind
      as (k & row & -> & Hk & -> & Hok & Hbefore).
    exists row. split_and!; try done.
    + by apply request_header_ok_spec.
    + intros above row' Hlt Hrow. by apply Hnot, (Hbefore above).
  - apply find_request_header_row_from_None in Hfind.
    rewrite Forall_forall in Hfind. intros row Hin. by apply Hnot, Hfind.
Qed.
End HeaderRowProps.

(** ** What extraction raises, and what it extracts *)

Section ScanProps.
Context {R Y : Type} (classify : R -> result (row_class Y)).

Lemma scan_Raise data_rows empty_streak rows e :
  scan classify data_rows empty_streak rows = Raise e ->
  exists row, row ∈ rows /\ classify row = Raise e.
Proof.
  revert data_rows empty_streak.
  induction rows as [|row rest IH]; intros n k; cbn [scan]; [done|].
  assert (Hrest : forall n' k',
    scan classify n' k' rest = Raise e ->
    exists row', row' ∈ row :: rest /\ classify row' = Raise e).
  { intros n' k' (r & ? & ?)%IH. exists r.
    split; [by apply list_elem_of_further|done]. }
  destruct (classify row) as [[|[y|]]|e'] eqn:Hrow; cbn [mbind result_bind].
  - repeat case_bool_decide; [done|apply Hrest..].
  - destruct (scan classify (S n) 0 rest) eqn:Hs; [done|].
    cbn [fmap result_fmap]. intros [= <-]. by apply (Hrest (S n) 0).
  - apply Hrest.
  - intros [= <-]. exists row. split; [apply list_elem_of_here|done].
Qed.

Lemma scan_elem_of data_rows empty_streak rows ys y :
  scan classify data_rows empty_streak rows = Ok ys -> y ∈ ys ->
  exists row, row ∈ rows /\ classify row = Ok (Data (Some y)).
Proof.
  revert data_rows empty_streak ys.
  induction rows as [|row rest IH]; intros n e ys; cbn [scan].
  - intros [= <-] Hin. by apply elem_of_nil in Hin.
  - destruct (classify row) as [[|[y'|]]|] eqn:Hrow;
      cbn [mbind result_bind]; [| | |done].
    + repeat case_bool_decide.
      * intros [= <-] Hin. by apply elem_of_nil in Hin.
      * intros Hs Hin. destruct (IH _ _ _ Hs Hin) as (r & ? & ?).
        exists r. split; [by apply list_elem_of_further|done].
      * intros Hs Hin. destruct (IH _ _ _ Hs Hin) as (r & ? & ?).
        exists r. split; [by apply list_elem_of_further|done].
    + destruct (scan classify (S n) 0 rest) as [ys'|] eqn:Hs; [|done].
      cbn. intros [= <-] [->|Hin]%elem_of_cons.
      * exists row. split; [apply list_elem_of_here|done].
      * destruct (IH _ _ _ Hs Hin) as (r & ? & ?).
        exists r. split; [by apply list_elem_of_further|done].
    + intros Hs Hin. destruct (IH _ _ _ Hs Hin) as (r & ? & ?).
      exists r. split; [by apply list_elem_of_further|done].
Qed.

Lemma scan_length data_rows empty_streak rows ys :
  scan classify data_rows empty_streak rows = Ok ys ->
  length ys ≤ length rows.
Proof.
  revert data_rows empty_streak ys.
  induction rows as [|row rest IH]; intros n e ys; cbn [scan].
  - by intros [= <-].
  - destruct (classify row) as [[|[y'|]]|] eqn:Hrow;
      cbn [mbind result_bind]; [| | |done].
    + repeat case_bool_decide.
      * intros [= <-]. simpl. lia.
      * intros Hs%IH. simpl. lia.
      * intros Hs%IH. simpl. lia.
    + destruct (scan classify (S n) 0 rest) as [ys'|] eqn:Hs; [|done].
      cbn. intros [= <-]. apply IH in Hs. simpl. lia.
    + intros Hs%IH. simpl. lia.
Qed.
End ScanProps.

Section ExtractionMore.
Context `{Runtime}.

(** [v] is not an integer beyond the binary64 range. *)
Definition fits_float (v : value) : bool :=
  match v with
  | VInt n => negb (PrimFloat.is_infinity (nearest_float n))
  | _ => true
  end.

(** Some cell of the frame is an integer beyond the binary64 range. *)
Definition overflowing (df : DataFrame) : bool :=
  existsb (existsb (λ v, negb (fits_float v))) df.

Lemma overflowing_cell df row v :
  row ∈ df -> v ∈ row -> fits_float v = false -> overflowing df = true.
Proof.
  intros Hrow Hv Hfits. unfold overflowing.
  apply existsb_exists. exists row. split; [by apply list_elem_of_In|].
  apply existsb_exists. exists v. split; [by apply list_elem_of_In|].
  by rewrite Hfits.
Qed.

Lemma to_float_Raise v e :
  to_float v = Raise e -> e = OverflowError /\ fits_float v = false.
Proof.
  destruct v as [|f|n|b|s|repr]; cbn [to_float fits_float]; try done.
  - unfold float_of_int.
    destruct (PrimFloat.is_infinity (nearest_float n));
      cbn [fmap result_fmap negb]; [by intros [= <-]|done].
  - intros Hraise. by destruct b; vm_compute in Hraise.
Qed.

Lemma header_cell_unfit header_map row label :
  fits_float (header_cell header_map row label) = false ->
  exists v, v ∈ row /\ fits_float v = false.
Proof.
  unfold header_cell.
  destruct (header_map !! label) as [col_idx|]; cbn [mbind option_bind];
    [|done].
  destruct (row !! col_idx) as [v|] eqn:Hv; cbn [default]; [|done].
  intros Hfits. exists v. split; [|done]. by apply list_elem_of_lookup_2 in Hv.
Qed.

Lemma has_all_is_Some headers header_map label :
  has_all headers header_map = true -> label ∈ headers ->
  is_Some (header_map !! label).
Proof.
  unfold has_all. rewrite forallb_forall. intros Hall Hin%list_elem_of_In.
  specialize (Hall label Hin). by apply bool_decide_eq_true in Hall.
Qed.

Lemma estimate_row_of_Raise path sheet_name file_dt a7_text values e :
  estimate_row_of path sheet_name file_dt a7_text values = Raise e ->
  exists label, label ∈ REQUIRED_HEADERS
                /\ to_float (values !!! label) = Raise e.
Proof.
  unfold estimate_row_of. case_match; [done|].
  assert (Hlabel : forall label : str,
    bool_decide (label ∈ REQUIRED_HEADERS) = true -> label ∈ REQUIRED_HEADERS)
    by (intros label; apply bool_decide_eq_true).
  destruct (to_float (values !!! utf8 "수량")) as [수량|e1] eqn:H1;
    cbn [mbind result_bind].
  - destruct (to_float (values !!! utf8 "단가")) as [단가|e2] eqn:H2;
      cbn [mbind result_bind].
    + destruct (to_float (values !!! utf8 "금액")) as [금액|e3] eqn:H3;
        cbn [mbind result_bind]; [done|].
      intros [= <-]. exists (utf8 "금액"). split; [|done].
      apply Hlabel. by vm_compute.
    + intros [= <-]. exists (utf8 "단가"). split; [|done].
      apply Hlabel. by vm_compute.
  - intros [= <-]. exists (utf8 "수량"). split; [|done].
    apply Hlabel. by vm_compute.
Qed.

Lemma estimate_rows_of_Raise path sheet_name file_dt a7_text yielded e :
  estimate_rows_of path sheet_name file_dt a7_text yielded = Raise e ->
  exists values,
    values ∈ yielded
    /\ estimate_row_of path sheet_name file_dt a7_text values = Raise e.
Proof.
  induction yielded as [|values rest IH]; cbn [estimate_rows_of]; [done|].
  assert (Hrest :
    estimate_rows_of path sheet_name file_dt a7_text rest = Raise e ->
    exists values',
      values' ∈ values :: rest
      /\ estimate_row_of path sheet_name file_dt a7_text values' = Raise e).
  { intros (v & ? & ?)%IH. exists v.
    split; [by apply list_elem_of_further|done]. }
  destruct (estimate_row_of path sheet_name file_dt a7_text values)
    as [[r|]|e'] eqn:Hrow; cbn [mbind result_bind].
  - destruct (estimate_rows_of _ _ _ _ rest); [done|].
    cbn [fmap result_fmap]. intros [= <-]. by apply Hrest.
  - apply Hrest.
  - intros [= <-]. exists values. split; [apply list_elem_of_here|done].
Qed.

Lemma estimate_rows_of_elem_of path sheet_name file_dt a7_text yielded rows r :
  estimate_rows_of path sheet_name file_dt a7_text yielded = Ok rows ->
  r ∈ rows ->
  exists values,
    values ∈ yielded
    /\ estimate_row_of path sheet_name file_dt a7_text values = Ok (Some r).
Proof.
  revert rows.
  induction yielded as [|values rest IH]; intros rows;
    cbn [estimate_rows_of].
  - intros [= <-] Hin. by apply elem_of_nil in Hin.
  - destruct (estimate_row_of path sheet_name file_dt a7_text values)
      as [[r'|]|e'] eqn:Hrow; cbn [mbind result_bind]; [| |done].
    + destruct (estimate_rows_of _ _ _ _ rest) as [rows'|]; [|done].
      cbn [fmap result_fmap]. intros [= <-] [->|Hin]%elem_of_cons.
      * exists values. split; [apply list_elem_of_here|done].
      * destruct (IH _ eq_refl Hin) as (v & ? & ?). exists v.
        split; [by apply list_elem_of_further|done].
    + intros Hrest Hin. destruct (IH _ Hrest Hin) as (v & ? & ?). exists v.
      split; [by apply list_elem_of_further|done].
Qed.

Lemma estimate_rows_of_length path sheet_name file_dt a7_text yielded rows :
  estimate_rows_of path sheet_name file_dt a7_text yielded = Ok rows ->
  length rows ≤ length yielded.
Proof.
  revert rows.
  induction yielded as [|values rest IH]; intros rows;
    cbn [estimate_rows_of].
  - by intros [= <-].
  - destruct (estimate_row_of path sheet_name file_dt a7_text values)
      as [[r'|]|e']; cbn [mbind result_bind]; [| |done].
    + destruct (estimate_rows_of _ _ _ _ rest) as [rows'|]; [|done].
      cbn [fmap result_fmap]. intros [= <-].
      specialize (IH _ eq_refl). simpl. lia.
    + intros Hrest%IH. simpl. lia.
Qed.

(** Under a header map with all six labels the scan of a price sheet
    does not raise, and what it yields are the cells of rows. *)
Lemma iter_estimate_rows_from_Ok header_map data_rows empty_streak rows :
  has_all REQUIRED_HEADERS header_map = true ->
  exists yielded,
    iter_estimate_rows_from header_map data_rows empty_streak rows = Ok yielded
    /\ length yielded ≤ length rows
    /\ forall values, values ∈ yielded ->
         exists row, row ∈ rows
                     /\ values = cells_of REQUIRED_HEADERS header_map row.
Proof.
  intros Hall. rewrite iter_estimate_rows_from_scan.
  assert (Hcells : forall row,
    estimate_values header_map row
    = Ok (cells_of REQUIRED_HEADERS header_map row)).
  { intros row. apply estimate_values_cells. intros label.
    by apply has_all_is_Some. }
  destruct (scan (estimate_class header_map) data_rows empty_streak rows)
    as [yielded|e] eqn:Hscan.
  - exists yielded. split_and!; [done|by apply scan_length in Hscan|].
    intros values Hin.
    destruct (scan_elem_of _ _ _ _ _ _ Hscan Hin) as (row & Hrow & Hclass).
    exists row. split; [done|].
    unfold estimate_class in Hclass. rewrite Hcells in Hclass.
    cbn [mbind result_bind] in Hclass. by case_match; simplify_eq.
  - apply scan_Raise in Hscan as (row & _ & Hclass).
    unfold estimate_class in Hclass. by rewrite Hcells in Hclass.
Qed.

(** X5.  [parse_estimate_sheet] raises no [KeyError] and no
    [IndexError]: the header map that [find_header_row] returns has
    every key that [iter_estimate_rows] looks up, and a row shorter
    than a header column reads as empty.  What it raises is the
    exception of [get_file_datetime], or [OverflowError] for a sheet
    that has an integer cell beyond the binary64 range; and it returns
    when the file time is read and no cell is such an integer. *)
Theorem parse_estimate_sheet_raises path sheet_name get_file_datetime df :
  (forall e,
     parse_estimate_sheet path sheet_name get_file_datetime df = Raise e ->
     get_file_datetime = Raise e
     \/ (e = OverflowError /\ overflowing df = true))
  /\ (forall file_dt,
        get_file_datetime = Ok file_dt -> overflowing df = false ->
        exists rows,
          parse_estimate_sheet path sheet_name get_file_datetime df = Ok rows).
Proof.
  assert (Hraise : forall e,
    parse_estimate_sheet path sheet_name get_file_datetime df = Raise e ->
    get_file_datetime = Raise e
    \/ (e = OverflowError /\ overflowing df = true)).
  { intros e. unfold parse_estimate_sheet.
    destruct (find_header_row df) as [[header_row header_map]|] eqn:Hfind;
      [|done].
    apply find_header_row_from_Some in Hfind
      as (k & hrow & _ & _ & _ & Hall & _).
    destruct get_file_datetime as [file_dt|e']; cbn [mbind result_bind];
      [|intros [= <-]; by left].
    unfold iter_estimate_rows.
    destruct (iter_estimate_rows_from_Ok header_map 0 0
                (drop (S header_row) df) Hall)
      as (yielded & -> & _ & Hyielded).
    cbn [mbind result_bind].
    intros (values & Hin & Hrow)%estimate_rows_of_Raise.
    destruct (Hyielded values Hin) as (row & Hrow_in & ->).
    apply estimate_row_of_Raise in Hrow as (label & Hlabel & Hfloat).
    rewrite cells_of_lookup in Hfloat
      by (done || apply NoDup_REQUIRED_HEADERS).
    apply to_float_Raise in Hfloat as [-> Hfits].
    apply header_cell_unfit in Hfits as (v & Hv & Hfits).
    right. split; [done|]. apply (overflowing_cell df row v); [|done..].
    apply list_elem_of_lookup in Hrow_in as [i Hi].
    rewrite lookup_drop in Hi. by apply list_elem_of_lookup_2 in Hi. }
  split; [done|]. intros file_dt Hdt Hfits.
  destruct (parse_estimate_sheet path sheet_name get_file_datetime df)
    as [rows|e] eqn:Hparse; [by exists rows|].
  destruct (Hraise e eq_refl) as [Hstat|[_ Hover]]; congruence.
Qed.

Lemma request_header_column_in_row row label col_idx :
  request_header_map_of_row row !! label = Some col_idx ->
  col_idx < length row.
Proof.
  rewrite request_header_map_lookup.
  assert (Hfound : forall (P : str -> Prop) `{!forall c, Decision (P c)},
    fst <$> list_find P (map normalize_text row) = Some col_idx ->
    col_idx < length row).
  { intros P ? Hf.
    destruct (list_find P _) as [[k c]|] eqn:Hfind; [|done].
    injection Hf as <-. apply list_find_Some in Hfind as (Hk & _).
    apply lookup_lt_Some in Hk. by rewrite length_map in Hk. }
  repeat case_decide; [apply Hfound..|done].
Qed.

Lemma request_class_Raise path sheet_name header_map row e :
  within header_map row ->
  request_class path sheet_name header_map row = Raise e ->
  e = OverflowError /\ exists v, v ∈ row /\ fits_float v = false.
Proof.
  intros Hwithin.
  rewrite (request_class_agrees path sheet_name header_map row Hwithin).
  destruct (fully_blank _ _ _); [done|]. unfold request_record.
  case_bool_decide; [done|].
  destruct (to_float _) as [quantity|e'] eqn:Hfloat; [done|].
  cbn [mbind result_bind fmap result_fmap]. intros [= <-].
  apply to_float_Raise in Hfloat as [-> Hfits].
  split; [done|]. by apply header_cell_unfit in Hfits.
Qed.

(** X6.  On a rectangular frame (every row of the same width, as pandas
    builds them) [parse_request_sheet] raises no [IndexError]: every
    column of the header map lies within the header row, hence within
    every row.  What it raises is [OverflowError], on a sheet that has
    an integer cell beyond the binary64 range, and it returns when no
    cell is such an integer. *)
Theorem parse_request_sheet_raises path sheet_name df width :
  Forall (λ row, length row = width) df ->
  (forall e,
     parse_request_sheet path sheet_name df = Raise e ->
     e = OverflowError /\ overflowing df = true)
  /\ (overflowing df = false ->
      exists rows, parse_request_sheet path sheet_name df = Ok rows).
Proof.
  intros Hrect.
  assert (Hraise : forall e,
    parse_request_sheet path sheet_name df = Raise e ->
    e = OverflowError /\ overflowing df = true).
  { intros e. unfold parse_request_sheet, find_request_header_row.
    destruct (find_request_header_row_from 0 df)
      as [[header_row header_map]|] eqn:Hfind; [|done].
    apply find_request_header_row_from_Some in Hfind
      as (k & hrow & -> & Hk & -> & _ & _).
    rewrite parse_request_rows_from_scan.
    intros (r & Hr & Hclass)%scan_Raise.
    rewrite Forall_forall in Hrect.
    assert (Hw : length hrow = width).
    { apply Hrect. by apply list_elem_of_lookup_2 in Hk. }
    assert (Hin : r ∈ df).
    { apply list_elem_of_lookup in Hr as [i Hi].
      rewrite lookup_drop in Hi. by apply list_elem_of_lookup_2 in Hi. }
    apply request_class_Raise in Hclass as [-> (v & Hv & Hfits)].
    - split; [done|]. by apply (overflowing_cell df r v).
    - intros label c Hc%request_header_column_in_row.
      rewrite (Hrect r Hin). lia. }
  split; [done|]. intros Hfits.
  destruct (parse_request_sheet path sheet_name df) as [rows|e] eqn:Hparse;
    [by exists rows|].
  destruct (Hraise e eq_refl) as [_ Hover]. congruence.
Qed.

Lemma estimate_row_of_named path sheet_name file_dt a7_text values e :
  estimate_row_of path sheet_name file_dt a7_text values = Ok (Some e) ->
  EstimateRow.품명 e ≠ []
  /\ Forall (λ c, isspace c = false) (EstimateRow.품명 e)
  /\ Forall (λ c, isspace c = false) (EstimateRow.규격 e)
  /\ Forall (λ c, isspace c = false) (EstimateRow.단위 e).
Proof.
  unfold estimate_row_of.
  destruct (normalize_text (values !!! utf8 "품명")) as [|c name] eqn:Hname;
    cbn [truthy negb]; [done|].
  destruct (to_float (values !!! utf8 "수량")); cbn [mbind result_bind];
    [|done].
  destruct (to_float (values !!! utf8 "단가")); cbn [mbind result_bind];
    [|done].
  destruct (to_float (values !!! utf8 "금액")); cbn [mbind result_bind];
    [|done].
  intros [= <-]. cbn. split; [done|].
  rewrite <- Hname. split_and!; apply normalize_text_no_space.
Qed.

Lemma request_row_of_named path sheet_name values r :
  request_row_of path sheet_name values = Ok (Some r) ->
  RequestRow.품명 r ≠ []
  /\ Forall (λ c, isspace c = false) (RequestRow.품명 r)
  /\ Forall (λ c, isspace c = false) (RequestRow.규격 r)
  /\ Forall (λ c, isspace c = false) (RequestRow.제조사 r)
  /\ Forall (λ c, isspace c = false) (RequestRow.단위 r).
Proof.
  unfold request_row_of.
  destruct (normalize_text (values !!! utf8 "품명")) as [|c name] eqn:Hname;
    cbn [truthy negb]; [done|].
  destruct (to_float (values !!! utf8 "구매량")); cbn [mbind result_bind];
    [|done].
  intros [= <-]. cbn. split; [done|].
  rewrite <- Hname. split_and!; apply normalize_text_no_space.
Qed.

(** X7.  Every record either parser extracts has a non-empty item name,
    and its text fields contain no whitespace; a sheet never yields more
    records than it has rows below the header. *)
Theorem extracted_records_are_named path sheet_name get_file_datetime df :
  (forall rows,
     parse_estimate_sheet path sheet_name get_file_datetime df = Ok rows ->
     length rows ≤ pred (length df)
     /\ Forall (λ e, EstimateRow.품명 e ≠ []
                     /\ Forall (λ c, isspace c = false) (EstimateRow.품명 e)
                     /\ Forall (λ c, isspace c = false) (EstimateRow.규격 e)
                     /\ Forall (λ c, isspace c = false) (EstimateRow.단위 e))
          rows)
  /\ (forall rows,
       parse_request_sheet path sheet_name df = Ok rows ->
       length rows ≤ pred (length df)
       /\ Forall (λ r, RequestRow.품명 r ≠ []
                       /\ Forall (λ c, isspace c = false) (RequestRow.품명 r)
                       /\ Forall (λ c, isspace c = false) (RequestRow.규격 r)
                       /\ Forall (λ c, isspace c = false) (RequestRow.제조사 r)
                       /\ Forall (λ c, isspace c = false) (RequestRow.단위 r))
            rows).
Proof.
  split; intros rows.
  - unfold parse_estimate_sheet.
    destruct (find_header_row df) as [[header_row header_map]|] eqn:Hfind.
    + apply find_header_row_from_Some in Hfind
        as (k & hrow & -> & Hk & _ & Hall & _).
      apply lookup_lt_Some in Hk.
      destruct get_file_datetime as [file_dt|]; cbn [mbind result_bind];
        [|done].
      unfold iter_estimate_rows.
      destruct (iter_estimate_rows_from_Ok header_map 0 0
                  (drop (S (0 + k)) df) Hall)
        as (yielded & -> & Hlen & _).
      cbn [mbind result_bind]. intros Hrows. split.
      * apply estimate_rows_of_length in Hrows.
        rewrite length_drop in Hlen. lia.
      * apply Forall_forall. intros e He.
        destruct (estimate_rows_of_elem_of _ _ _ _ _ _ _ Hrows He)
          as (values & _ & Hrow).
        by apply estimate_row_of_named in Hrow.
    + intros [= <-]. split; [simpl; lia|constructor].
  - unfold parse_request_sheet, find_request_header_row.
    destruct (find_request_header_row_from 0 df)
      as [[header_row header_map]|] eqn:Hfind.
    + apply find_request_header_row_from_Some in Hfind
        as (k & hrow & -> & Hk & _).
      apply lookup_lt_Some in Hk.
      rewrite parse_request_rows_from_scan. intros Hscan. split.
      * apply scan_length in Hscan. rewrite length_drop in Hscan. lia.
      * apply Forall_forall. intros r Hr.
        destruct (scan_elem_of _ _ _ _ _ _ Hscan Hr) as (row & _ & Hrow).
        unfold request_class in Hrow.
        destruct (request_values header_map row) as [values|]; [|done].
        cbn [mbind result_bind] in Hrow.
        destruct (has_any REQUEST_HEADERS values); [|done].
        destruct (request_row_of path sheet_name values) as [r'|] eqn:Hrec;
          [|done].
        cbn [fmap result_fmap] in Hrow. simplify_eq.
        by apply request_row_of_named in Hrec.
    + intros [= <-]. split; [simpl; lia|constructor].
Qed.
End ExtractionMore.

(** ** The anchor cell and the request label *)

Section LabelProps.
Context `{Runtime}.

(** [compute_request_label] ([level4_generate_estimate.py]) from the
    stem of the request file on: the first four characters of the stem
    without its whitespace (no file gives the empty stem). *)
Definition compute_request_label (stem : str) : str :=
  let compact := remove_whitespace stem in
  take 4 compact.

(** [derive_request_label] ([web_app.py]) from the stem of the uploaded
    file name on. *)
Definition derive_request_label (stem : str) : str :=
  let base := nfc stem in
  let compact := remove_whitespace base in
  take 4 compact.

Lemma lstrip_head text c rest :
  lstrip text = c :: rest -> isspace c = false.
Proof.
  induction text as [|x text IH]; cbn [lstrip]; [done|].
  destruct (isspace x) eqn:Hx; [done|]. by intros [= <- _].
Qed.

Lemma lstrip_suffix text : exists spaces, text = spaces ++ lstrip text.
Proof.
  induction text as [|x text [spaces IH]]; cbn [lstrip]; [by exists []|].
  destruct (isspace x); [|by exists []].
  exists (x :: spaces). simpl. congruence.
Qed.

Lemma lstrip_no_space text :
  Forall (λ c, isspace c = false) text -> lstrip text = text.
Proof. intros [|c rest Hc _]; cbn [lstrip]; [done|]. by rewrite Hc. Qed.

Lemma strip_no_space text :
  Forall (λ c, isspace c = false) text -> strip text = text.
Proof.
  intros Htext. unfold strip. rewrite (lstrip_no_space text) by done.
  rewrite lstrip_no_space; [apply reverse_involutive|].
  by apply Forall_reverse.
Qed.

Lemma strip_head text c : head (strip text) = Some c -> isspace c = false.
Proof.
  unfold strip. rewrite head_reverse. intros Hlast.
  destruct (lstrip_suffix (reverse (lstrip text))) as [spaces Hsplit].
  assert (Hl : last (reverse (lstrip text)) = Some c).
  { rewrite Hsplit. apply last_app_Some. by left. }
  rewrite last_reverse in Hl.
  destruct (lstrip text) as [|x rest] eqn:Hx; [done|].
  injection Hl as ->. by apply lstrip_head in Hx.
Qed.

Lemma strip_last text c : last (strip text) = Some c -> isspace c = false.
Proof.
  unfold strip. rewrite last_reverse.
  destruct (lstrip (reverse (lstrip text))) as [|x rest] eqn:Hx; [done|].
  intros [= ->]. by apply lstrip_head in Hx.
Qed.

Lemma lstrip_split text :
  exists spaces,
    text = spaces ++ lstrip text /\ Forall (λ c, isspace c = true) spaces.
Proof.
  induction text as [|x text (spaces & IH & Hspaces)]; cbn [lstrip];
    [by exists []|].
  destruct (isspace x) eqn:Hx; [|by exists []].
  exists (x :: spaces). split; [simpl; congruence|by constructor].
Qed.

Lemma strip_split text :
  exists before after,
    text = before ++ strip text ++ after
    /\ Forall (λ c, isspace c = true) before
    /\ Forall (λ c, isspace c = true) after.
Proof.
  destruct (lstrip_split text) as (before & Hbefore & Hspaces_before).
  destruct (lstrip_split (reverse (lstrip text)))
    as (after & Hafter & Hspaces_after).
  exists before, (reverse after). split_and!; [|done|by apply Forall_reverse].
  transitivity (before ++ lstrip text); [done|]. f_equal.
  unfold strip. rewrite <- reverse_app, <- Hafter.
  by rewrite reverse_involutive.
Qed.

(** X8.  [extract_a7_text] returns the empty text when the frame has no
    row 7 or that row has no column 1 (the [IndexError] case), and what
    it returns otherwise neither begins nor ends with whitespace. *)
Theorem extract_a7_text_stripped df :
  (df !! 6 ≫= (.!! 0) = None -> extract_a7_text df = [])
  /\ (length df ≤ 6 -> extract_a7_text df = [])
  /\ (forall c, head (extract_a7_text df) = Some c -> isspace c = false)
  /\ (forall c, last (extract_a7_text df) = Some c -> isspace c = false).
Proof.
  assert (Hnone : df !! 6 ≫= (.!! 0) = None -> extract_a7_text df = []).
  { intros Hcell. unfold extract_a7_text. by rewrite Hcell. }
  split_and!; [done| | |].
  - intros Hlen. apply Hnone. by rewrite (lookup_ge_None_2 df 6).
  - intros c. unfold extract_a7_text.
    destruct (df !! 6 ≫= (.!! 0)) as [[]|]; try done; apply strip_head.
  - intros c. unfold extract_a7_text.
    destruct (df !! 6 ≫= (.!! 0)) as [[]|]; try done; apply strip_last.
Qed.

Lemma take_no_space n text :
  Forall (λ c, isspace c = false) text ->
  Forall (λ c, isspace c = false) (take n text).
Proof. apply Forall_take. Qed.

(** X9.  A request label has at most four characters and no whitespace,
    so a sheet whose anchor cell holds the label as text gives the label
    back unchanged through [extract_a7_text]. *)
Theorem request_label_survives_anchor_cell stem df :
  length (compute_request_label stem) ≤ 4
  /\ length (derive_request_label stem) ≤ 4
  /\ Forall (λ c, isspace c = false) (compute_request_label stem)
  /\ Forall (λ c, isspace c = false) (derive_request_label stem)
  /\ (df !! 6 ≫= (.!! 0) = Some (VStr (compute_request_label stem)) ->
      extract_a7_text df = compute_request_label stem)
  /\ (df !! 6 ≫= (.!! 0) = Some (VStr (derive_request_label stem)) ->
      extract_a7_text df = derive_request_label stem).
Proof.
  assert (H1 : Forall (λ c, isspace c = false) (compute_request_label stem)).
  { apply take_no_space, remove_whitespace_no_space. }
  assert (H2 : Forall (λ c, isspace c = false) (derive_request_label stem)).
  { apply take_no_space, remove_whitespace_no_space. }
  split_and!; try done.
  - unfold compute_request_label. rewrite length_take. lia.
  - unfold derive_request_label. rewrite length_take. lia.
  - intros Hcell. unfold extract_a7_text. rewrite Hcell.
    by apply strip_no_space.
  - intros Hcell. unfold extract_a7_text. rewrite Hcell.
    by apply strip_no_space.
Qed.
End LabelProps.

(** ** Provenance *)

Section ProvenanceProps.
Context `{Runtime} `{Sqlite}.

Lemma estimate_row_of_provenance path sheet_name file_dt a7_text values e :
  estimate_row_of path sheet_name file_dt a7_text values = Ok (Some e) ->
  EstimateRow.source_file e = path
  /\ EstimateRow.source_sheet e = sheet_name
  /\ EstimateRow.file_datetime e = file_dt
  /\ EstimateRow.a7_text e = a7_text.
Proof.
  unfold estimate_row_of. case_match; [done|].
  destruct (to_float (values !!! utf8 "수량")); cbn [mbind result_bind];
    [|done].
  destruct (to_float (values !!! utf8 "단가")); cbn [mbind result_bind];
    [|done].
  destruct (to_float (values !!! utf8 "금액")); cbn [mbind result_bind];
    [|done].
  by intros [= <-].
Qed.

(** C9 (amended).  The free-text marker is the text of the anchor cell
    (row 7, column 1) with leading and trailing whitespace stripped:
    the text of the cell is the marker with whitespace before and after
    it, and the marker neither begins nor ends with whitespace; the
    marker is empty when the cell is absent.  The effective timestamp
    is the document time in ISO 8601 text.  From there on the four
    provenance fields are carried unchanged: every line extracted from
    a sheet is stored with the document path, the sheet name, that
    timestamp and that marker, and a result reports the four fields of
    the record that the first tier to return one returned, as they are
    stored; a result for which no tier returned a record reports
    none. *)
Theorem provenance_carried_through path sheet_name file_dt df table row :
  (df !! 6 ≫= (.!! 0) = None \/ df !! 6 ≫= (.!! 0) = Some VNone ->
   extract_a7_text df = [])
  /\ (forall v, df !! 6 ≫= (.!! 0) = Some v -> v ≠ VNone ->
       exists before after,
         to_str v = before ++ extract_a7_text df ++ after
         /\ Forall (λ c, isspace c = true) before
         /\ Forall (λ c, isspace c = true) after
         /\ (forall c, head (extract_a7_text df) = Some c ->
                       isspace c = false)
         /\ (forall c, last (extract_a7_text df) = Some c ->
                       isspace c = false))
  /\ (forall rows,
       parse_estimate_sheet path sheet_name (Ok file_dt) df = Ok rows ->
       Forall (λ e,
           estimate_items.source_file (insert_values e) = path
           /\ estimate_items.source_sheet (insert_values e) = sheet_name
           /\ estimate_items.file_datetime (insert_values e)
               = isoformat file_dt
           /\ estimate_items.a7_text (insert_values e)
               = Some (extract_a7_text df)) rows)
  /\ match first_record (tier_results table row) with
     | Some (_, r) =>
         MatchedRow.matched_source_file (match_row table row)
         = Some (estimate_items.source_file r)
         /\ MatchedRow.matched_source_sheet (match_row table row)
            = Some (estimate_items.source_sheet r)
         /\ MatchedRow.matched_file_datetime (match_row table row)
            = Some (estimate_items.file_datetime r)
         /\ MatchedRow.matched_a7_text (match_row table row)
            = estimate_items.a7_text r
     | None =>
         MatchedRow.matched (match_row table row) = false
         /\ MatchedRow.matched_source_file (match_row table row) = None
         /\ MatchedRow.matched_source_sheet (match_row table row) = None
         /\ MatchedRow.matched_file_datetime (match_row table row) = None
         /\ MatchedRow.matched_a7_text (match_row table row) = None
     end.
Proof.
  split_and!.
  - unfold extract_a7_text. by intros [-> | ->].
  - intros v Hv Hnone.
    assert (Htext : extract_a7_text df = strip (to_str v)).
    { unfold extract_a7_text. rewrite Hv. by destruct v. }
    rewrite Htext.
    destruct (strip_split (to_str v)) as (before & after & ? & ? & ?).
    exists before, after.
    split_and!; [done..|apply strip_head|apply strip_last].
  - intros rows. unfold parse_estimate_sheet.
    destruct (find_header_row df) as [[header_row header_map]|];
      cbn [mbind result_bind].
    + destruct (iter_estimate_rows _ _ _) as [yielded|];
        cbn [mbind result_bind]; [|done].
      intros Hrows. apply Forall_forall. intros e He.
      destruct (estimate_rows_of_elem_of _ _ _ _ _ _ _ Hrows He)
        as (values & _ & Hrow).
      apply estimate_row_of_provenance in Hrow as (<- & <- & <- & <-).
      done.
    + intros [= <-]. constructor.
  - unfold match_row. rewrite resolve_tiers_first_record.
    destruct (first_record _) as [[method r]|]; simpl; [|done].
    by destruct (estimate_items.단가 r).
Qed.
End ProvenanceProps.

(** ** Lookups in the price history *)

Lemma str_leb_refl (a : str) : str_leb a a = true.
Proof.
  induction a as [|x a IH]; [done|]. cbn [str_leb].
  by rewrite N.ltb_irrefl.
Qed.

Lemma str_leb_trans (a b c : str) :
  str_leb a b = true -> str_leb b c = true -> str_leb a c = true.
Proof.
  revert b c. induction a as [|x a IH]; intros [|y b] [|z c];
    cbn [str_leb]; try done.
  destruct (N.ltb_spec x y), (N.ltb_spec y x), (N.ltb_spec y z),
    (N.ltb_spec z y), (N.ltb_spec x z), (N.ltb_spec z x);
    try done; try lia.
  apply IH.
Qed.

#[local] Instance newest_first_trans : Transitive newest_first.
Proof.
  intros a b c Hab Hbc. unfold newest_first in *.
  apply Is_true_true. apply Is_true_true in Hab, Hbc.
  by apply (str_leb_trans _ (estimate_items.file_datetime b)).
Qed.

#[local] Instance newest_first_refl : Reflexive newest_first.
Proof. intros a. unfold newest_first. by rewrite str_leb_refl. Qed.

Lemma sorted_after_newest (before after : list estimate_items.row) r :
  Sorted newest_first (before ++ r :: after) ->
  Forall (newest_first r) after.
Proof.
  intros Hsorted. apply Sorted_StronglySorted in Hsorted;
    [|intros a b c; apply newest_first_trans].
  induction before as [|x before IH]; cbn in Hsorted.
  - by apply StronglySorted_inv in Hsorted as [_ ?].
  - apply StronglySorted_inv in Hsorted as [? _]. by apply IH.
Qed.

Lemma sorted_head_newest (rows : list estimate_items.row) r :
  Sorted newest_first rows -> head rows = Some r ->
  forall r', r' ∈ rows -> newest_first r r'.
Proof.
  destruct rows as [|x rest]; [done|].
  intros Hsorted [= ->] r' [->|Hin]%elem_of_cons; [done|].
  pose proof (sorted_after_newest [] rest r Hsorted) as Hall.
  rewrite Forall_forall in Hall. by apply Hall.
Qed.

Section LookupProps.
Context `{Runtime} `{Sqlite}.

(** What [SELECT ... WHERE P ORDER BY file_datetime DESC LIMIT 1]
    fetches: a newest row among those that satisfy [P], or nothing when
    no row does. *)
Definition newest_where (P : estimate_items.row -> Prop)
    (table : list estimate_items.row)
    (fetched : option estimate_items.row) : Prop :=
  match fetched with
  | Some r =>
      r ∈ table /\ P r
      /\ forall r', r' ∈ table -> P r' -> newest_first r r'
  | None => forall r', r' ∈ table -> ~ P r'
  end.

Lemma head_order_by_newest (P : estimate_items.row -> Prop)
    `{!forall r, Decision (P r)} table :
  newest_where P table
    (head (order_by_file_datetime_desc (filter P table))).
Proof.
  unfold newest_where.
  destruct (head _) as [r|] eqn:Hhead.
  - destruct (head_order_by_filter P table r Hhead) as [Hin HP].
    split_and!; [done..|]. intros r' Hin' HP'.
    apply (sorted_head_newest _ r (order_by_sorted _) Hhead).
    apply order_by_elem_of, list_elem_of_filter. done.
  - apply head_None in Hhead. intros r' Hin' HP'.
    assert (Hr' : r' ∈ order_by_file_datetime_desc (filter P table)).
    { apply order_by_elem_of, list_elem_of_filter. done. }
    rewrite Hhead in Hr'. by apply elem_of_nil in Hr'.
Qed.

(** X10.  Each of the three keyed lookups returns a row of the table
    that has the key and is at least as new as every other row with that
    key, and returns nothing exactly when no row has the key (a row
    whose spec code is NULL has no spec key). *)
Theorem keyed_lookups_return_newest table 품명 규격 :
  newest_where (λ r, estimate_items.품명 r = 품명
                     /\ estimate_items.규격 r = Some 규격)
    table (lookup_latest_price table 품명 규격)
  /\ newest_where (λ r, estimate_items.규격 r = Some 규격)
       table (lookup_latest_price_by_spec table 규격)
  /\ newest_where (λ r, estimate_items.품명 r = 품명)
       table (lookup_latest_price_by_name table 품명).
Proof.
  split_and!; apply head_order_by_newest.
Qed.

(** The test of the fuzzy scan on one row. *)
Definition fuzzy_matches (target : str) (row : estimate_items.row) : bool :=
  let candidate := normalize_code (default [] (estimate_items.규격 row)) in
  truthy candidate
  && (endswith target candidate || endswith candidate target).

Lemma first_fuzzy_split target rows :
  match first_fuzzy target rows with
  | Some r =>
      exists before after,
        rows = before ++ r :: after
        /\ fuzzy_matches target r = true
        /\ Forall (λ r', fuzzy_matches target r' = false) before
  | None => Forall (λ r', fuzzy_matches target r' = false) rows
  end.
Proof.
  induction rows as [|row rest IH]; cbn [first_fuzzy]; [done|].
  unfold fuzzy_matches at 1 3.
  destruct (truthy (normalize_code (default [] (estimate_items.규격 row))))
    eqn:Hkey; cbn [negb andb].
  - destruct (endswith target _ || endswith _ target) eqn:Hends.
    + exists [], rest. split_and!; [done| |done].
      unfold fuzzy_matches. by rewrite Hkey, Hends.
    + destruct (first_fuzzy target rest) as [r|].
      * destruct IH as (before & after & -> & Hr & Hbefore).
        exists (row :: before), after. split_and!; [done..|].
        constructor; [|done]. unfold fuzzy_matches. by rewrite Hkey, Hends.
      * constructor; [|done]. unfold fuzzy_matches. by rewrite Hkey, Hends.
  - destruct (first_fuzzy target rest) as [r|].
    + destruct IH as (before & after & -> & Hr & Hbefore).
      exists (row :: before), after. split_and!; [done..|].
      constructor; [|done]. unfold fuzzy_matches. by rewrite Hkey.
    + constructor; [|done]. unfold fuzzy_matches. by rewrite Hkey.
Qed.

Lemma fuzzy_matches_has_spec target r :
  fuzzy_matches target r = true ->
  estimate_items.규격 r ≠ None /\ estimate_items.규격 r ≠ Some [].
Proof.
  unfold fuzzy_matches.
  destruct (estimate_items.규격 r) as [[|c s]|]; cbn; done.
Qed.

Lemma endswith_nil s : endswith s [] = true.
Proof.
  unfold endswith. apply bool_decide_eq_true.
  rewrite Nat.sub_0_r. apply drop_all.
Qed.

Lemma fuzzy_matches_keys target r :
  fuzzy_matches target r = true <->
  normalize_code (default [] (estimate_items.규격 r)) ≠ []
  /\ endswith target (normalize_code (default [] (estimate_items.규격 r)))
     || endswith (normalize_code (default [] (estimate_items.규격 r))) target
     = true.
Proof.
  unfold fuzzy_matches.
  destruct (normalize_code (default [] (estimate_items.규격 r)));
    cbn [truthy andb].
  - split; [done|by intros [Hkey _]].
  - split; [by intros ->|by intros [_ ->]].
Qed.

(** What the fuzzy lookup returns, for the request's fuzzy key
    [target]. *)
Definition newest_fuzzy (target : str) (table : list estimate_items.row)
    (fetched : option estimate_items.row) : Prop :=
  match fetched with
  | Some r =>
      r ∈ table
      /\ target ≠ []
      /\ fuzzy_matches target r = true
      /\ forall r', r' ∈ table -> fuzzy_matches target r' = true ->
                    newest_first r r'
  | None =>
      target = []
      \/ forall r', r' ∈ table -> fuzzy_matches target r' = false
  end.

Lemma fuzzy_lookup_newest table 규격 :
  newest_fuzzy (normalize_code 규격) table
    (lookup_latest_price_fuzzy_spec table 규격).
Proof.
  unfold lookup_latest_price_fuzzy_spec.
  destruct (normalize_code 규격) as [|c key] eqn:Htarget; cbn [truthy negb];
    [by left|].
  set (target := c :: key).
  set (rows := order_by_file_datetime_desc _).
  assert (Hrows : forall r', r' ∈ table -> fuzzy_matches target r' = true ->
                             r' ∈ rows).
  { intros r' Hin Hm. apply order_by_elem_of, list_elem_of_filter.
    split; [|done]. by apply (fuzzy_matches_has_spec target). }
  pose proof (first_fuzzy_split target rows) as Hsplit.
  destruct (first_fuzzy target rows) as [r|]; cbn [newest_fuzzy].
  - destruct Hsplit as (before & after & Heq & Hr & Hbefore).
    split_and!; [|done..|].
    + assert (Hin : r ∈ rows) by (rewrite Heq; set_solver).
      by apply order_by_elem_of, list_elem_of_filter in Hin as [_ ?].
    + intros r' Hin Hm. specialize (Hrows r' Hin Hm).
      pose proof (order_by_sorted
        (filter (λ r, estimate_items.규격 r ≠ None
                      ∧ estimate_items.규격 r ≠ Some []) table)) as Hsorted.
      fold rows in Hsorted. rewrite Heq in Hsorted, Hrows.
      apply sorted_after_newest in Hsorted.
      apply elem_of_app in Hrows as [Hb|Ha].
      * rewrite Forall_forall in Hbefore. specialize (Hbefore r' Hb).
        congruence.
      * apply elem_of_cons in Ha as [->|Ha]; [done|].
        rewrite Forall_forall in Hsorted. by apply Hsorted.
  - right. intros r' Hin.
    destruct (fuzzy_matches target r') eqn:Hm; [|done].
    rewrite Forall_forall in Hsplit.
    specialize (Hsplit r' (Hrows r' Hin Hm)). congruence.
Qed.

(** C10.  The fuzzy scan passes over a record whose fuzzy key is empty,
    although the empty key is a suffix of every key: the scan of the
    records that follow it decides.  Hence an empty-key record is never
    returned, what is returned has a non-empty fuzzy key for a request
    whose fuzzy key is non-empty, one key a suffix of the other, and is
    at least as new as every other record with a non-empty key that
    passes the suffix test, whatever empty-key records the table holds;
    nothing is returned only when the request's key is empty or every
    record has an empty key or fails the suffix test. *)
Theorem fuzzy_lookup_needs_both_keys table 규격 :
  (forall target row rest,
     normalize_code (default [] (estimate_items.규격 row)) = [] ->
     endswith target (normalize_code (default [] (estimate_items.규격 row)))
     = true
     /\ first_fuzzy target (row :: rest) = first_fuzzy target rest)
  /\ match lookup_latest_price_fuzzy_spec table 규격 with
     | Some r =>
         r ∈ table
         /\ normalize_code 규격 ≠ []
         /\ normalize_code (default [] (estimate_items.규격 r)) ≠ []
         /\ endswith (normalize_code 규격)
              (normalize_code (default [] (estimate_items.규격 r)))
            || endswith (normalize_code (default [] (estimate_items.규격 r)))
                 (normalize_code 규격) = true
         /\ forall r',
              r' ∈ table ->
              normalize_code (default [] (estimate_items.규격 r')) ≠ [] ->
              endswith (normalize_code 규격)
                (normalize_code (default [] (estimate_items.규격 r')))
              || endswith (normalize_code (default [] (estimate_items.규격 r')))
                   (normalize_code 규격) = true ->
              newest_first r r'
     | None =>
         normalize_code 규격 = []
         \/ forall r',
              r' ∈ table ->
              normalize_code (default [] (estimate_items.규격 r')) = []
              \/ endswith (normalize_code 규격)
                   (normalize_code (default [] (estimate_items.규격 r')))
                 || endswith
                      (normalize_code (default [] (estimate_items.규격 r')))
                      (normalize_code 규격) = false
     end.
Proof.
  split.
  - intros target row rest Hkey. cbn [first_fuzzy]. rewrite Hkey.
    split; [apply endswith_nil|done].
  - pose proof (fuzzy_lookup_newest table 규격) as Hnew.
    destruct (lookup_latest_price_fuzzy_spec table 규격) as [r|];
      cbn [newest_fuzzy] in Hnew.
    + destruct Hnew as (Hin & Htarget & [Hkey Hends]%fuzzy_matches_keys & Hmax).
      split_and!; [done..|]. intros r' Hin' Hkey' Hends'.
      apply Hmax; [done|]. by apply fuzzy_matches_keys.
    + destruct Hnew as [Htarget|Hnone]; [by left|]. right. intros r' Hin'.
      specialize (Hnone r' Hin').
      destruct (normalize_code (default [] (estimate_items.규격 r')))
        as [|c key] eqn:Hkey; [by left|]. right.
      unfold fuzzy_matches in Hnone. by rewrite Hkey in Hnone.
Qed.

(** X11.  The fuzzy lookup returns a row of the table that passes the
    suffix test against the request's fuzzy key, which is then not
    empty, and is at least as new as every other row that passes it; it
    returns nothing exactly when the request's fuzzy key is empty or no
    row passes the test. *)
Theorem fuzzy_lookup_returns_newest table 규격 :
  match lookup_latest_price_fuzzy_spec table 규격 with
  | Some r =>
      r ∈ table
      /\ normalize_code 규격 ≠ []
      /\ fuzzy_matches (normalize_code 규격) r = true
      /\ forall r', r' ∈ table ->
           fuzzy_matches (normalize_code 규격) r' = true ->
           newest_first r r'
  | None =>
      normalize_code 규격 = []
      \/ forall r', r' ∈ table ->
           fuzzy_matches (normalize_code 규격) r' = false
  end.
Proof. apply fuzzy_lookup_newest. Qed.

(** X12.  Inserting and looking up: after [insert_rows] the old rows are
    still there in their order, the count returned is the number of rows
    given, and the exact lookup with the name and spec of any inserted
    row finds a row with that key that is at least as new. *)
Theorem insert_then_lookup table rows :
  (insert_rows table rows).2 = length rows
  /\ take (length table) (insert_rows table rows).1 = table
  /\ length (insert_rows table rows).1 = length table + length rows
  /\ forall e,
       e ∈ rows ->
       exists r,
         lookup_latest_price (insert_rows table rows).1
           (EstimateRow.품명 e) (EstimateRow.규격 e) = Some r
         /\ estimate_items.품명 r = EstimateRow.품명 e
         /\ estimate_items.규격 r = Some (EstimateRow.규격 e)
         /\ newest_first r (insert_values e).
Proof.
  unfold insert_rows. cbn [fst snd].
  split_and!; [done|by rewrite take_app_length| |].
  - by rewrite length_app, length_map.
  - intros e He.
    pose proof (head_order_by_newest
      (λ r, estimate_items.품명 r = EstimateRow.품명 e
            /\ estimate_items.규격 r = Some (EstimateRow.규격 e))
      (table ++ map insert_values rows)) as Hnew.
    fold (lookup_latest_price (table ++ map insert_values rows)
            (EstimateRow.품명 e) (EstimateRow.규격 e)) in Hnew.
    assert (Hin : insert_values e ∈ table ++ map insert_values rows).
    { apply elem_of_app. right. by apply list_elem_of_fmap_2. }
    destruct (lookup_latest_price _ _ _) as [r|]; cbn in Hnew.
    + destruct Hnew as (_ & [Hn Hs] & Hmax). exists r.
      split_and!; [done..|]. by apply Hmax.
    + by destruct (Hnew _ Hin).
Qed.
End LookupProps.

(** ** Results of price resolution *)

Section ResultProps.
Context `{Runtime} `{Sqlite}.

Lemma head_order_by_None (P : estimate_items.row -> Prop)
    `{!forall r, Decision (P r)} table :
  (forall r, r ∈ table -> ~ P r) ->
  head (order_by_file_datetime_desc (filter P table)) = None.
Proof.
  intros Hnone.
  assert (Hempty : filter P table = []).
  { apply elem_of_nil_inv. intros r [HP Hin]%list_elem_of_filter.
    by apply (Hnone r). }
  by rewrite Hempty, order_by_nil.
Qed.

(** X13.  A request with an empty spec code whose item name occurs
    nowhere in the price history (an empty history included) gets
    "no price found": no tier, no price, no amount, no provenance and no
    candidates. *)
Theorem unknown_name_without_spec_is_unmatched table row :
  RequestRow.규격 row = [] ->
  (forall r, r ∈ table -> estimate_items.품명 r ≠ RequestRow.품명 row) ->
  match_row table row = {|
    MatchedRow.request := row;
    MatchedRow.matched := false;
    MatchedRow.match_method := None;
    MatchedRow.matched_source_file := None;
    MatchedRow.matched_source_sheet := None;
    MatchedRow.matched_file_datetime := None;
    MatchedRow.matched_a7_text := None;
    MatchedRow.단가 := None;
    MatchedRow.금액 := None;
    MatchedRow.status := utf8 "단가 없음";
    MatchedRow.candidates := [] |}.
Proof.
  intros Hspec Hname.
  assert (Hexact : lookup_latest_price table (RequestRow.품명 row) [] = None).
  { apply head_order_by_None. intros r Hin [Hn _]. by apply (Hname r). }
  assert (Hbyname :
    lookup_latest_price_by_name table (RequestRow.품명 row) = None).
  { apply head_order_by_None. intros r Hin Hn. by apply (Hname r). }
  unfold match_row, resolve_tiers. rewrite Hspec, Hexact.
  cbn [found negb truthy andb]. rewrite andb_false_r.
  destruct (truthy (RequestRow.품명 row)); cbn [andb]; [|done].
  by rewrite Hbyname.
Qed.

(** X14.  When the price history has a row with the request's item name
    and spec code, the result is labelled with the exact tier and reports
    a row with that key that is at least as new as every other row with
    the key; it is priced exactly when that row has a unit price, older
    priced rows notwithstanding. *)
Theorem exact_key_wins table row r0 :
  r0 ∈ table ->
  estimate_items.품명 r0 = RequestRow.품명 row ->
  estimate_items.규격 r0 = Some (RequestRow.규격 row) ->
  exists r,
    r ∈ table
    /\ estimate_items.품명 r = RequestRow.품명 row
    /\ estimate_items.규격 r = Some (RequestRow.규격 row)
    /\ (forall r', r' ∈ table ->
          estimate_items.품명 r' = RequestRow.품명 row ->
          estimate_items.규격 r' = Some (RequestRow.규격 row) ->
          newest_first r r')
    /\ MatchedRow.match_method (match_row table row) = Some (utf8 "품명+규격")
    /\ MatchedRow.matched_source_file (match_row table row)
       = Some (estimate_items.source_file r)
    /\ MatchedRow.matched_file_datetime (match_row table row)
       = Some (estimate_items.file_datetime r)
    /\ MatchedRow.단가 (match_row table row) = estimate_items.단가 r
    /\ MatchedRow.matched (match_row table row)
       = found (estimate_items.단가 r).
Proof.
  intros Hin Hname Hspec.
  pose proof (head_order_by_newest
    (λ r, estimate_items.품명 r = RequestRow.품명 row
          /\ estimate_items.규격 r = Some (RequestRow.규격 row)) table) as Hnew.
  fold (lookup_latest_price table (RequestRow.품명 row) (RequestRow.규격 row))
    in Hnew.
  destruct (lookup_latest_price table (RequestRow.품명 row)
              (RequestRow.규격 row)) as [r|] eqn:Hexact; cbn in Hnew;
    [|by destruct (Hnew r0 Hin)].
  destruct Hnew as (Hr & [Hn Hs] & Hmax).
  assert (Hresult :
    MatchedRow.match_method (match_row table row) = Some (utf8 "품명+규격")
    /\ MatchedRow.matched_source_file (match_row table row)
       = Some (estimate_items.source_file r)
    /\ MatchedRow.matched_file_datetime (match_row table row)
       = Some (estimate_items.file_datetime r)
    /\ MatchedRow.단가 (match_row table row) = estimate_items.단가 r
    /\ MatchedRow.matched (match_row table row)
       = found (estimate_items.단가 r)).
  { unfold match_row. rewrite resolve_tiers_first_record.
    unfold tier_results. cbn [first_record]. rewrite Hexact.
    cbn [first_record mbind option_bind].
    by destruct (estimate_items.단가 r). }
  exists r. split_and!; try done; try apply Hresult.
  intros r' Hr' Hn' Hs'. by apply Hmax.
Qed.

Lemma exact_label_only_for_exact_tier table row r :
  first_record (tier_results table row) = Some (utf8 "품명+규격", r) ->
  lookup_latest_price table (RequestRow.품명 row) (RequestRow.규격 row)
  = Some r.
Proof.
  unfold tier_results. cbn [first_record].
  destruct (lookup_latest_price _ _ _) as [x|]; [by intros [= ->]|].
  repeat (case_match; cbn [first_record]); intros Heq; try done;
    injection Heq as Heq _; vm_compute in Heq; discriminate.
Qed.

(** X15.  When both fields of the request are non-empty and the result
    is priced by the exact tier, the record it reports is one of the
    candidates: the candidate list has an entry with the same price,
    document, sheet, timestamp and marker. *)
Theorem exact_priced_result_is_a_candidate table row :
  truthy (RequestRow.품명 row) -> truthy (RequestRow.규격 row) ->
  MatchedRow.match_method (match_row table row) = Some (utf8 "품명+규격") ->
  MatchedRow.matched (match_row table row) = true ->
  exists c,
    c ∈ MatchedRow.candidates (match_row table row)
    /\ Candidate.단가 c = MatchedRow.단가 (match_row table row)
    /\ Some (Candidate.견적서파일 c)
       = MatchedRow.matched_source_file (match_row table row)
    /\ Some (Candidate.시트 c)
       = MatchedRow.matched_source_sheet (match_row table row)
    /\ Some (Candidate.견적날짜 c)
       = MatchedRow.matched_file_datetime (match_row table row)
    /\ Candidate.A7 c = MatchedRow.matched_a7_text (match_row table row).
Proof.
  intros Hname Hspec. unfold match_row.
  rewrite resolve_tiers_first_record.
  destruct (truthy (RequestRow.품명 row)); [|done].
  destruct (truthy (RequestRow.규격 row)); [|done]. cbn [andb].
  destruct (first_record (tier_results table row)) as [[method r]|] eqn:Hfirst;
    [|done].
  cbn [mbind option_bind].
  destruct (estimate_items.단가 r) as [price|] eqn:Hprice; [|done].
  cbn. intros [= ->] _.
  apply exact_label_only_for_exact_tier in Hfirst.
  apply head_order_by_filter in Hfirst as [Hin [Hn Hs]].
  exists (candidate_of r). split_and!; try done.
  apply list_elem_of_fmap_2. unfold lookup_candidates.
  apply order_by_elem_of, list_elem_of_filter.
  split; [|done]. split_and!; [done..|]. by rewrite Hprice.
Qed.
End ResultProps.

(** ** Overrides *)

(** X16.  The override step keeps the length and order of the results;
    an entry whose position is not overridden is untouched (positions
    beyond the list are ignored); an overridden entry gets the given unit
    price and the matching amount, and keeps its request, tier label,
    provenance, candidates, and also its [matched] flag and [status],
    which the step never updates. *)
Theorem apply_overrides_frame overrides matched i item :
  matched !! i = Some item ->
  length (apply_overrides overrides matched) = length matched
  /\ exists item',
       apply_overrides overrides matched !! i = Some item'
       /\ match overrides !! i with
          | None => item' = item
          | Some unit_price =>
              MatchedRow.단가 item' = unit_price
              /\ MatchedRow.금액 item'
                 = amount_of unit_price
                     (RequestRow.구매량 (MatchedRow.request item))
              /\ MatchedRow.request item' = MatchedRow.request item
              /\ MatchedRow.match_method item' = MatchedRow.match_method item
              /\ MatchedRow.matched_source_file item'
                 = MatchedRow.matched_source_file item
              /\ MatchedRow.matched_source_sheet item'
                 = MatchedRow.matched_source_sheet item
              /\ MatchedRow.matched_file_datetime item'
                 = MatchedRow.matched_file_datetime item
              /\ MatchedRow.matched_a7_text item'
                 = MatchedRow.matched_a7_text item
              /\ MatchedRow.candidates item' = MatchedRow.candidates item
              /\ MatchedRow.matched item' = MatchedRow.matched item
              /\ MatchedRow.status item' = MatchedRow.status item
          end.
Proof.
  intros Hi. unfold apply_overrides. split; [apply length_imap|].
  rewrite list_lookup_imap, Hi. cbn.
  destruct (overrides !! i) as [unit_price|]; [|by eexists].
  eexists. split; [done|].
  unfold override_item. destruct unit_price as [p|]; cbn; [|done].
  split_and!; done.
Qed.

(** ** Ingestion in batches *)

Section BatchProps.
Context `{Runtime} `{Sqlite}.

(** X17.  Ingestion is append-only: two batches inserted one after the
    other give the table that inserting them as one batch gives, and a
    later batch never hides a price: an exact lookup that found a row
    before still finds one afterwards, at least as new. *)
Theorem insert_rows_appends table batch1 batch2 :
  (insert_rows (insert_rows table batch1).1 batch2).1
  = (insert_rows table (batch1 ++ batch2)).1
  /\ forall 품명 규격 r,
       lookup_latest_price table 품명 규격 = Some r ->
       exists r',
         lookup_latest_price (insert_rows table batch1).1 품명 규격 = Some r'
         /\ estimate_items.품명 r' = 품명
         /\ estimate_items.규격 r' = Some 규격
         /\ newest_first r' r.
Proof.
  unfold insert_rows. cbn [fst].
  split; [by rewrite map_app, app_assoc|]. intros 품명 규격 r Hfound.
  apply head_order_by_filter in Hfound as [Hin Hkey].
  pose proof (head_order_by_newest
    (λ r, estimate_items.품명 r = 품명 /\ estimate_items.규격 r = Some 규격)
    (table ++ map insert_values batch1)) as Hnew.
  fold (lookup_latest_price (table ++ map insert_values batch1) 품명 규격)
    in Hnew.
  assert (Hin' : r ∈ table ++ map insert_values batch1).
  { apply elem_of_app. by left. }
  destruct (lookup_latest_price _ _ _) as [r'|]; cbn in Hnew.
  - destruct Hnew as (_ & [Hn Hs] & Hmax). exists r'.
    split_and!; [done..|]. by apply Hmax.
  - by destruct (Hnew r Hin').
Qed.
End BatchProps.

(** ** Which files are read ([level1_build_db.py],
    [level2_parse_request.py]) *)

(** An entry of a directory listing: its final path component and
    whether it is a directory. *)
Record dir_entry := {
  name : str;
  is_dir : bool;
}.

(** [s.startswith(prefix)] *)
Definition startswith (s prefix : str) : bool :=
  bool_decide (take (length prefix) s = prefix).

(** [sub in s] *)
Fixpoint contains (sub s : str) : bool :=
  startswith s sub
  || match s with
     | [] => false
     | _ :: rest => contains sub rest
     end.

Section FileFilters.
Context `{Runtime}.
(** [Path.suffix] of a file name, and [str.lower]. *)
Variable suffix : str -> str.
Variable lower : str -> str.

Definition excel_suffix (entry : dir_entry) : bool :=
  bool_decide (lower (suffix (name entry)) ∈ [utf8 ".xls"; utf8 ".xlsx"]).

(** The test of [iter_estimate_files] on one entry of [root.rglob("*")]. *)
Definition is_estimate_file (entry : dir_entry) : bool :=
  if is_dir entry then false
  else if startswith (name entry) (utf8 "~$") then false
  else if negb (excel_suffix entry) then false
  else
    let name := nfc (name entry) in
    if negb (contains (utf8 "견적서") name) then false
    else if contains (utf8 "견적의뢰") name || contains (utf8 "견적요청") name
    then false
    else true.

Definition iter_estimate_files (listing : list dir_entry) : list dir_entry :=
  filter (λ entry, is_estimate_file entry = true) listing.

(** The test of [iter_request_files] on one entry. *)
Definition is_request_file (entry : dir_entry) : bool :=
  if is_dir entry then false
  else if startswith (name entry) (utf8 "~$") then false
  else if negb (excel_suffix entry) then false
  else
    let name := nfc (name entry) in
    contains (utf8 "견적의뢰") name || contains (utf8 "견적요청") name.

Definition iter_request_files (listing : list dir_entry) : list dir_entry :=
  filter (λ entry, is_request_file entry = true) listing.

(** X18.  No file is read both as a price document and as a request
    document; what either walk yields is a file, not a directory, with an
    Excel suffix and a name that does not start with "~$", in the order
    of the listing. *)
Theorem estimate_and_request_files_disjoint listing entry :
  (entry ∈ iter_estimate_files listing ->
   entry ∉ iter_request_files listing)
  /\ (entry ∈ iter_estimate_files listing \/ entry ∈ iter_request_files listing ->
      entry ∈ listing /\ is_dir entry = false
      /\ startswith (name entry) (utf8 "~$") = false
      /\ excel_suffix entry = true)
  /\ iter_estimate_files listing `sublist_of` listing
  /\ iter_request_files listing `sublist_of` listing.
Proof.
  unfold iter_estimate_files, iter_request_files.
  split_and!; [| |apply sublist_filter..].
  - intros [He _]%list_elem_of_filter [Hr _]%list_elem_of_filter.
    unfold is_estimate_file, is_request_file in *.
    repeat (case_match; try done); congruence.
  - intros [[Hy Hin]%list_elem_of_filter|[Hy Hin]%list_elem_of_filter];
      (split; [done|]);
      unfold is_estimate_file, is_request_file in Hy;
      destruct (is_dir entry); [done| |done|];
      destruct (startswith _ _); [done| |done|];
      by destruct (excel_suffix entry).
Qed.
End FileFilters.

(** ** The last data row of a template ([level4_generate_estimate.py]) *)

(** A worksheet as openpyxl presents it: rows and columns are numbered
    from 1, and a cell that was never written reads as [None]. *)
Record worksheet := {
  max_row : nat;
  cell_value : nat -> nat -> value;
}.

(** [value not in (None, "")] *)
Definition cell_filled (v : value) : bool :=
  match v with
  | VNone => false
  | VStr [] => false
  | _ => true
  end.

(** The inner loop of [find_last_data_row]: some cell of the row in
    columns [start_col .. end_col] is filled. *)
Definition row_has_any (ws : worksheet) (start_col end_col row_idx : nat)
    : bool :=
  existsb (λ col_idx, cell_filled (cell_value ws row_idx col_idx))
    (seq start_col (S end_col - start_col)).

(** The outer loop of [find_last_data_row] over the remaining rows. *)
Fixpoint last_data_row_loop (has_any : nat -> bool)
    (empty_streak last_row : nat) (row_idxs : list nat) : nat :=
  match row_idxs with
  | [] => last_row
  | row_idx :: rest =>
      if has_any row_idx then last_data_row_loop has_any 0 row_idx rest
      else
        let empty_streak := S empty_streak in
        if bool_decide (2 ≤ empty_streak) then last_row
        else last_data_row_loop has_any empty_streak last_row rest
  end.

Definition find_last_data_row (ws : worksheet)
    (start_row start_col end_col : nat) : nat :=
  let last_row :=
    last_data_row_loop (row_has_any ws start_col end_col) 0 start_row
      (seq start_row (S (max_row ws) - start_row)) in
  last_row `max` start_row.

Section LastDataRow.
Variable has_any : nat -> bool.
Variable start_row : nat.

(** The state of the loop before it reads row [row_idx]. *)
Definition loop_state (empty_streak last_row row_idx : nat) : Prop :=
  start_row ≤ last_row
  /\ (last_row = start_row \/ has_any last_row = true)
  /\ ((empty_streak = 0
       /\ ((row_idx = start_row /\ last_row = start_row)
           \/ last_row + 1 = row_idx))
      \/ (empty_streak = 1
          /\ has_any (row_idx - 1) = false
          /\ start_row < row_idx
          /\ (last_row + 2 = row_idx
              \/ (last_row = start_row /\ row_idx = start_row + 1)))).

Lemma last_data_row_loop_spec count row_idx empty_streak last_row :
  loop_state empty_streak last_row row_idx ->
  let result :=
    last_data_row_loop has_any empty_streak last_row (seq row_idx count) in
  start_row ≤ result
  /\ (result = start_row \/ has_any result = true)
  /\ result < (row_idx + count) `max` (start_row + 1)
  /\ (result + 1 < row_idx + count -> has_any (result + 1) = false).
Proof.
  revert row_idx empty_streak last_row.
  induction count as [|count IH]; intros i e last (Hstart & Hlast & Hstate);
    cbn [seq last_data_row_loop].
  - split_and!; [done..| |].
    + destruct Hstate as [(_ & [[-> ->]|<-])|(_ & _ & ? & [<-|[-> ->]])]; lia.
    + intros Hlt.
      destruct Hstate as [(_ & [[-> ->]|<-])|(_ & He & ? & [<-|[-> ->]])];
        try lia.
      by replace (last + 1) with (last + 2 - 1) by lia.
  - destruct (has_any i) eqn:Hi.
    + assert (Hstate' : loop_state 0 i (S i)).
      { split_and!; [|by right|left; split; [done|right; lia]].
        destruct Hstate as [(_ & [[-> ->]|<-])|(_ & _ & ? & _)]; lia. }
      destruct (IH (S i) 0 i Hstate') as (? & ? & ? & Hnext).
      split_and!; [done..|lia|]. intros Hlt. apply Hnext. lia.
    + destruct Hstate as [(-> & Hpos)|(-> & Hprev & Hgt & Hpos)].
      * rewrite bool_decide_false by lia.
        assert (Hstate' : loop_state 1 last (S i)).
        { split_and!; [done..|]. right.
          split_and!; [done| |lia|].
          - by replace (S i - 1) with i by lia.
          - destruct Hpos as [[-> ->]|<-]; [right|left]; lia. }
        destruct (IH (S i) 1 last Hstate') as (? & ? & ? & Hnext).
        split_and!; [done..|lia|]. intros Hlt. apply Hnext. lia.
      * rewrite bool_decide_true by lia.
        split_and!; [done..| |].
        -- destruct Hpos as [<-|[-> ->]]; lia.
        -- intros _. destruct Hpos as [<-|[-> ->]].
           ++ by replace (last + 1) with (last + 2 - 1) by lia.
           ++ done.
Qed.
End LastDataRow.

(** X19.  [find_last_data_row] returns a row from [start_row] to the
    last row of the sheet ([start_row] itself when the sheet ends before
    it); unless it is [start_row], the row it returns has a filled cell
    in the scanned columns, and the row just below it, if the sheet has
    one, has none.  Two empty rows at the very start end the scan at once:
    unlike the extraction scans, empty rows count before any data. *)
Theorem find_last_data_row_spec ws start_row start_col end_col :
  let result := find_last_data_row ws start_row start_col end_col in
  start_row ≤ result
  /\ result ≤ max_row ws `max` start_row
  /\ (result ≠ start_row ->
      row_has_any ws start_col end_col result = true)
  /\ (result < max_row ws ->
      row_has_any ws start_col end_col (result + 1) = false)
  /\ (start_row < max_row ws ->
      row_has_any ws start_col end_col start_row = false ->
      row_has_any ws start_col end_col (start_row + 1) = false ->
      result = start_row).
Proof.
  cbn zeta. unfold find_last_data_row.
  set (has_any := row_has_any ws start_col end_col).
  assert (Hinit : loop_state has_any start_row 0 start_row start_row).
  { split_and!; [done|by left|]. left. split; [done|]. by left. }
  pose proof (last_data_row_loop_spec has_any start_row
                (S (max_row ws) - start_row) start_row 0 start_row Hinit)
    as (Hge & Hfilled & Hlt & Hnext).
  cbn zeta in *.
  set (result := last_data_row_loop _ _ _ _) in *.
  rewrite (Nat.max_l result start_row) by done.
  split_and!; [done|lia| | |].
  - intros Hne. by destruct Hfilled.
  - intros Hmax. apply Hnext. lia.
  - intros Hrows H0 H1. subst result.
    replace (S (max_row ws) - start_row)
      with (S (S (max_row ws - start_row - 1))) by lia.
    cbn [seq last_data_row_loop]. rewrite H0.
    rewrite bool_decide_false by lia.
    replace (S start_row) with (start_row + 1) by lia.
    rewrite H1. by rewrite bool_decide_true by lia.
Qed.

(** ** Further runs *)

Section MoreRuns.
#[local] Existing Instance Reference.runtime.
#[local] Existing Instance Reference.sqlite.

Definition bolt_history : list estimate_items.row :=
  history [quote "BoltM6" "SS304-10MM" 1 (Some 100%float);
           quote "BoltM6" "SS304-10MM" 2 (Some 120%float)].

Definition bolt_request : RequestRow.t :=
  request "BoltM6" "SS304-10MM" (Some 3%float).

Definition request_sheet : DataFrame :=
  request_above ++ [blank5; blank5]
    ++ bolt_row :: [blank5; nameless_row; nut_row]
    ++ blank5 :: blank5 :: [note_row].

(** C10, witness: the newest record of the table has the spec code
    "---", whose fuzzy key is empty; the scan passes over it and
    returns the older record whose key ends with the request's. *)
Lemma fuzzy_lookup_needs_both_keys_witness :
  normalize_code (utf8 "---") = []
  /\ lookup_latest_price_fuzzy_spec
       (history [quote "Valve" "ABC-0012-REV2" 1 (Some 50%float);
                 quote "Gasket" "---" 2 (Some 7%float)])
       (utf8 "0012-REV2")
     = Some (insert_values (quote "Valve" "ABC-0012-REV2" 1 (Some 50%float))).
Proof.
  split; [vm_compute; reflexivity|].
  destruct (fuzzy_lookup_needs_both_keys
              (history [quote "Valve" "ABC-0012-REV2" 1 (Some 50%float);
                        quote "Gasket" "---" 2 (Some 7%float)])
              (utf8 "0012-REV2")) as [_ Hlookup].
  destruct (lookup_latest_price_fuzzy_spec _ _) as [r|].
  - destruct Hlookup as (Hin & _ & Hkey & _).
    apply elem_of_cons in Hin as [->|Hin]; [reflexivity|].
    apply elem_of_cons in Hin as [->|Hin]; [|by apply elem_of_nil in Hin].
    exfalso. apply Hkey. vm_compute. reflexivity.
  - exfalso. destruct Hlookup as [Htarget|Hnone].
    + vm_compute in Htarget. discriminate.
    + destruct (Hnone (insert_values
                         (quote "Valve" "ABC-0012-REV2" 1 (Some 50%float))))
        as [Hkey|Hends].
      * apply list_elem_of_here.
      * vm_compute in Hkey. discriminate.
      * vm_compute in Hends. discriminate.
Defined.

(** C9, witness: the anchor cell of the price sheet of the runs above
    is its marker between two blanks before and one after. *)
Lemma provenance_carried_through_witness :
  exists before after,
    utf8 "  납품장소: 본사 " = before ++ extract_a7_text price_sheet ++ after
    /\ Forall (λ c, isspace c = true) before
    /\ Forall (λ c, isspace c = true) after
    /\ (forall c, head (extract_a7_text price_sheet) = Some c ->
                  isspace c = false)
    /\ (forall c, last (extract_a7_text price_sheet) = Some c ->
                  isspace c = false).
Proof.
  apply (proj1 (proj2 (provenance_carried_through
                         (utf8 "견적서.xlsx") (utf8 "Sheet1")
                         {| year := 2024; month := 1; day := 1;
                            hour := 9; minute := 0; second := 0;
                            microsecond := 0 |}
                         price_sheet bolt_history bolt_request))
           (VStr (utf8 "  납품장소: 본사 "))).
  - vm_compute. reflexivity.
  - discriminate.
Defined.

(** X5, witness: the price sheet of the runs above. *)
Lemma parse_estimate_sheet_raises_witness :
  exists rows,
    parse_estimate_sheet (utf8 "견적서.xlsx") (utf8 "Sheet1")
      (Ok {| year := 2024; month := 1; day := 1;
             hour := 9; minute := 0; second := 0; microsecond := 0 |})
      price_sheet
    = Ok rows.
Proof.
  apply (proj2 (parse_estimate_sheet_raises
                  (utf8 "견적서.xlsx") (utf8 "Sheet1")
                  (Ok {| year := 2024; month := 1; day := 1;
                         hour := 9; minute := 0; second := 0;
                         microsecond := 0 |})
                  price_sheet)
           {| year := 2024; month := 1; day := 1;
              hour := 9; minute := 0; second := 0; microsecond := 0 |}).
  - reflexivity.
  - vm_compute. reflexivity.
Defined.

Example parse_estimate_sheet_runs :
  parse_estimate_sheet (utf8 "견적서.xlsx") (utf8 "Sheet1") (Raise OSError)
    price_sheet
  = Raise OSError
  /\ parse_estimate_sheet (utf8 "견적서.xlsx") (utf8 "Sheet1") (Raise OSError)
       (replicate 6 empty6)
     = Ok []
  /\ parse_estimate_sheet (utf8 "견적서.xlsx") (utf8 "Sheet1")
       (Ok {| year := 2024; month := 1; day := 1;
              hour := 9; minute := 0; second := 0; microsecond := 0 |})
       [ [text "품명"; text "규격"; text "단위"; text "수량"; text "단가";
          text "금액"];
         [text "볼트"; text "M6"; text "EA"; VInt 1; VInt (10 ^ 400);
          VInt 100] ]
     = Raise OverflowError.
Proof. vm_compute. repeat split. Qed.

(** X6, witness: the request sheet of the runs above, five columns wide. *)
Lemma parse_request_sheet_raises_witness :
  exists rows,
    parse_request_sheet (utf8 "견적의뢰.xlsx") (utf8 "Sheet1") request_sheet
    = Ok rows.
Proof.
  apply (proj2 (parse_request_sheet_raises
                  (utf8 "견적의뢰.xlsx") (utf8 "Sheet1") request_sheet 5
                  ltac:(repeat constructor))).
  vm_compute. reflexivity.
Defined.

(** X12, witness: a second document inserted into a history. *)
Lemma insert_then_lookup_witness :
  exists r,
    lookup_latest_price
      (insert_rows bolt_history [quote "Nut" "M6" 3 (Some 20%float)]).1
      (utf8 "Nut") (utf8 "M6") = Some r
    /\ estimate_items.품명 r = utf8 "Nut"
    /\ estimate_items.규격 r = Some (utf8 "M6")
    /\ newest_first r (insert_values (quote "Nut" "M6" 3 (Some 20%float))).
Proof.
  apply (proj2 (proj2 (proj2 (insert_then_lookup bolt_history
                                [quote "Nut" "M6" 3 (Some 20%float)])))
           (quote "Nut" "M6" 3 (Some 20%float))).
  apply list_elem_of_here.
Defined.

(** X13, witness: a name without history and no spec code. *)
Lemma unknown_name_without_spec_is_unmatched_witness :
  MatchedRow.match_method
    (match_row bolt_history (request "Pump" "" (Some 1%float))) = None.
Proof.
  rewrite (unknown_name_without_spec_is_unmatched bolt_history
             (request "Pump" "" (Some 1%float))).
  - reflexivity.
  - reflexivity.
  - intros r Hr Hname. vm_compute in Hr.
    apply elem_of_cons in Hr as [->|Hr]; [vm_compute in Hname; discriminate|].
    apply elem_of_cons in Hr as [->|Hr]; [vm_compute in Hname; discriminate|].
    by apply elem_of_nil in Hr.
Defined.

(** X14, witness: two quotations under the key of the request. *)
Lemma exact_key_wins_witness :
  exists r,
    r ∈ bolt_history
    /\ MatchedRow.matched_file_datetime (match_row bolt_history bolt_request)
       = Some (estimate_items.file_datetime r).
Proof.
  destruct (exact_key_wins bolt_history bolt_request
              (insert_values (quote "BoltM6" "SS304-10MM" 1 (Some 100%float))))
    as (r & Hin & _ & _ & _ & _ & _ & Hdate & _).
  - apply list_elem_of_here.
  - reflexivity.
  - reflexivity.
  - exists r. exact (conj Hin Hdate).
Defined.

(** X15, witness: the same request; its price is among the candidates. *)
Lemma exact_priced_result_is_a_candidate_witness :
  exists c,
    c ∈ MatchedRow.candidates (match_row bolt_history bolt_request)
    /\ Candidate.단가 c
       = MatchedRow.단가 (match_row bolt_history bolt_request).
Proof.
  destruct (exact_priced_result_is_a_candidate bolt_history bolt_request)
    as (c & Hin & Hprice & _).
  - vm_compute. exact I.
  - vm_compute. exact I.
  - vm_compute. reflexivity.
  - vm_compute. reflexivity.
  - exists c. exact (conj Hin Hprice).
Defined.

(** X16, witness: the price of the first result replaced by 130. *)
Lemma apply_overrides_frame_witness :
  length (apply_overrides {[0 := Some 130%float]}
            (match_prices bolt_history [bolt_request]))
  = length (match_prices bolt_history [bolt_request]).
Proof.
  apply (apply_overrides_frame {[0 := Some 130%float]}
           (match_prices bolt_history [bolt_request]) 0
           (match_row bolt_history bolt_request)).
  reflexivity.
Defined.

(** X17, witness: a further batch after the history above; the exact
    lookup still finds a record for the key of the history. *)
Lemma insert_rows_appends_witness :
  exists r',
    lookup_latest_price
      (insert_rows bolt_history [quote "BoltM6" "SS304-10MM" 4 None]).1
      (utf8 "BoltM6") (utf8 "SS304-10MM") = Some r'
    /\ estimate_items.품명 r' = utf8 "BoltM6"
    /\ estimate_items.규격 r' = Some (utf8 "SS304-10MM")
    /\ newest_first r'
         (insert_values (quote "BoltM6" "SS304-10MM" 2 (Some 120%float))).
Proof.
  apply (proj2 (insert_rows_appends bolt_history
                  [quote "BoltM6" "SS304-10MM" 4 None]
                  [quote "Nut" "M6" 3 (Some 20%float)])
           (utf8 "BoltM6") (utf8 "SS304-10MM")
           (insert_values (quote "BoltM6" "SS304-10MM" 2 (Some 120%float)))).
  vm_compute. reflexivity.
Defined.

(** A template sheet with two item rows below the header in row 13, a
    gap of one row, a third item and a footer further down. *)
Definition template_sheet : worksheet := {|
  max_row := 40;
  cell_value := λ row col,
    if bool_decide (col = 2 /\ row ∈ [14; 15; 17; 30]) then text "item"
    else VNone;
|}.

Example find_last_data_row_run :
  find_last_data_row template_sheet 14 2 24 = 17.
Proof. vm_compute. reflexivity. Qed.

Example header_of_price_sheet :
  find_header_row price_sheet
  = Some (7, header_map_of_row
               [text "품명"; text "규격"; text "단위"; text "수량";
                text "단가"; text "금액"])
  /\ header_map_of_row
       [text "품명"; text "규격"; text "단위"; text "수량";
        text "단가"; text "금액"] !! utf8 "단가" = Some 4.
Proof. split; vm_compute; reflexivity. Qed.
End MoreRuns.

(** ** Column spans of a template ([level4_generate_estimate.py]) *)

Definition SPAN_LABELS : list str :=
  Eval vm_compute in
  [utf8 "번호"; utf8 "품명"; utf8 "규격"; utf8 "단위"; utf8 "수량";
   utf8 "단가"; utf8 "금액"; utf8 "비고"].

(** [[(idx, cell) for idx, cell in enumerate(normalized) if cell in labels]]
    from column [col_idx] on.  The markers come out in increasing column
    order, so the [sort] by column that follows leaves them as they are. *)
Fixpoint markers_from (col_idx : nat) (normalized : list str)
    : list (nat * str) :=
  match normalized with
  | [] => []
  | cell :: rest =>
      if bool_decide (cell ∈ SPAN_LABELS)
      then (col_idx, cell) :: markers_from (S col_idx) rest
      else markers_from (S col_idx) rest
  end.

(** The loop of [compute_spans] over the remaining markers. *)
Fixpoint spans_from (markers : list (nat * str)) (max_col : nat)
    (spans : gmap str (nat * nat)) : gmap str (nat * nat) :=
  match markers with
  | [] => spans
  | (start_idx, label) :: rest =>
      let end_idx :=
        match rest with
        | (next_idx, _) :: _ => next_idx - 1
        | [] => max_col
        end in
      spans_from rest max_col (<[label := (start_idx, end_idx)]> spans)
  end.

Section Spans.
Context `{Runtime}.

(** [df.iloc[header_row]] raises outside the frame; [df.shape[1]] is the
    width of the rows. *)
Definition compute_spans (df : DataFrame) (header_row : nat)
    : option (gmap str (nat * nat)) :=
  row ← df !! header_row;
  let normalized := map normalize_text row in
  let markers := markers_from 0 normalized in
  if bool_decide (markers = []) then Some ∅
  else
    let max_col := length row - 1 in
    Some (spans_from markers max_col ∅).
End Spans.

(** A span [(s, e)] for [label] in a row that starts at column [k]: the
    span starts at the last column labelled [label], no column of the
    span after the first is labelled, and the span ends just before the
    next labelled column, or at [max_col] when there is none. *)
Definition span_in (k : nat) (cells : list str) (max_col : nat)
    (label : str) (s e : nat) : Prop :=
  k ≤ s /\ cells !! (s - k) = Some label /\ label ∈ SPAN_LABELS
  /\ (forall i, s - k < i -> cells !! i ≠ Some label)
  /\ s ≤ e
  /\ (forall c cell, s < c ≤ e -> cells !! (c - k) = Some cell ->
        cell ∉ SPAN_LABELS)
  /\ ((e = max_col
       /\ forall c cell, s < c -> cells !! (c - k) = Some cell ->
            cell ∉ SPAN_LABELS)
      \/ exists cell, cells !! (e + 1 - k) = Some cell /\ cell ∈ SPAN_LABELS).

Lemma markers_from_head k cells :
  match markers_from k cells with
  | (n, c) :: _ =>
      k ≤ n /\ cells !! (n - k) = Some c /\ c ∈ SPAN_LABELS
      /\ forall i cell, i < n - k -> cells !! i = Some cell ->
           cell ∉ SPAN_LABELS
  | [] => forall i cell, cells !! i = Some cell -> cell ∉ SPAN_LABELS
  end.
Proof.
  revert k. induction cells as [|cell rest IH]; intros k;
    cbn [markers_from]; [done|].
  case_bool_decide as Hcell.
  - split_and!; [lia|by rewrite Nat.sub_diag|done|]. intros i c Hi. lia.
  - specialize (IH (S k)).
    destruct (markers_from (S k) rest) as [|[n c] ms].
    + intros [|i] c; [by intros [= <-]|]. apply IH.
    + destruct IH as (Hk & Hn & Hc & Hbefore).
      split_and!; [lia| |done|].
      * by replace (n - k) with (S (n - S k)) by lia.
      * intros [|i] c' Hi; [by intros [= <-]|].
        apply Hbefore. lia.
Qed.

Lemma span_in_shift k cell rest max_col label s e :
  span_in (S k) rest max_col label s e ->
  span_in k (cell :: rest) max_col label s e.
Proof.
  intros (Hk & Hs & Hl & Hlast & Hse & Hmid & Hend).
  assert (Hidx : forall c, S k ≤ c -> (cell :: rest) !! (c - k)
                                      = rest !! (c - S k)).
  { intros c Hc. by replace (c - k) with (S (c - S k)) by lia. }
  split_and!; [lia|by rewrite Hidx|done| |done| |].
  - intros [|i] Hi; [lia|]. apply Hlast. lia.
  - intros c c' Hc. rewrite Hidx by lia. by apply Hmid.
  - destruct Hend as [[-> Hall]|(c' & Hc' & Hl')].
    + left. split; [done|]. intros c c' Hc. rewrite Hidx by lia.
      by apply Hall.
    + right. exists c'. by rewrite Hidx by lia.
Qed.

Lemma spans_from_Some k cells max_col spans label s e :
  k + length cells ≤ S max_col ->
  spans_from (markers_from k cells) max_col spans !! label = Some (s, e) ->
  (spans !! label = Some (s, e) /\ (label ∈ SPAN_LABELS -> label ∉ cells))
  \/ span_in k cells max_col label s e.
Proof.
  revert k spans. induction cells as [|cell rest IH]; intros k spans Hmax;
    cbn [markers_from spans_from].
  - intros Hl. left. split; [done|]. intros _. apply not_elem_of_nil.
  - cbn [length] in Hmax. case_bool_decide as Hcell.
    + cbn [spans_from]. intros Hl.
      apply IH in Hl as [[Hl Hnot]|Hspan]; [| |lia].
      * destruct (decide (label = cell)) as [->|Hne].
        -- rewrite lookup_insert_eq in Hl. injection Hl as <- <-.
           right. pose proof (markers_from_head (S k) rest) as Hhead.
           specialize (Hnot Hcell).
           assert (Hlast : forall i, k - k < i ->
                                     (cell :: rest) !! i ≠ Some cell).
           { intros [|i] Hi; [lia|]. cbn. intros Hi'.
             apply list_elem_of_lookup_2 in Hi'. by apply Hnot. }
           destruct (markers_from (S k) rest) as [|[n c] ms].
           ++ split_and!; [lia|by rewrite Nat.sub_diag|done|done|lia| |].
              ** intros c c' Hc Hc'.
                 replace (c - k) with (S (c - S k)) in Hc' by lia.
                 by apply (Hhead (c - S k)).
              ** left. split; [done|]. intros c c' Hc Hc'.
                 replace (c - k) with (S (c - S k)) in Hc' by lia.
                 by apply (Hhead (c - S k)).
           ++ destruct Hhead as (Hk & Hn & Hc & Hbefore).
              split_and!; [lia|by rewrite Nat.sub_diag|done|done|lia| |].
              ** intros c' cell' Hc' Hcell'.
                 replace (c' - k) with (S (c' - S k)) in Hcell' by lia.
                 apply (Hbefore (c' - S k)); [lia|done].
              ** right. exists c.
                 replace (n - 1 + 1 - k) with (S (n - S k)) by lia. done.
        -- rewrite lookup_insert_ne in Hl by done. left. split; [done|].
           intros Hlab [->|Hin]%elem_of_cons; [done|]. by apply Hnot.
      * right. by apply span_in_shift.
    + intros Hl. apply IH in Hl as [[Hl Hnot]|Hspan]; [| |lia].
      * left. split; [done|].
        intros Hlab [->|Hin]%elem_of_cons; [done|]. by apply Hnot.
      * right. by apply span_in_shift.
Qed.

Lemma spans_from_keeps markers max_col spans label :
  is_Some (spans !! label) ->
  is_Some (spans_from markers max_col spans !! label).
Proof.
  revert spans. induction markers as [|[s l] rest IH]; intros spans;
    cbn [spans_from]; [done|].
  intros Hl. apply IH. destruct (decide (label = l)) as [->|Hne].
  - rewrite lookup_insert_eq. by eexists.
  - by rewrite lookup_insert_ne.
Qed.

Lemma spans_from_covers k cells max_col spans label :
  label ∈ SPAN_LABELS -> label ∈ cells ->
  is_Some (spans_from (markers_from k cells) max_col spans !! label).
Proof.
  intros Hlab. revert k spans.
  induction cells as [|cell rest IH]; intros k spans Hin;
    cbn [markers_from]; [by apply elem_of_nil in Hin|].
  apply elem_of_cons in Hin as [<-|Hin].
  - rewrite bool_decide_true by done. cbn [spans_from].
    apply spans_from_keeps. rewrite lookup_insert_eq. by eexists.
  - case_bool_decide; [cbn [spans_from]|]; by apply IH.
Qed.

Section SpansProps.
Context `{Runtime}.

(** X20.  [compute_spans] gives a span to exactly the span labels that
    occur in the header row.  The span of a label starts at the last
    column with that label and lies within the row; no other column of
    the span is labelled; the span ends just before the next labelled
    column, or at the last column of the row when none follows.  A header
    row outside the frame raises. *)
Theorem compute_spans_spec df header_row :
  match df !! header_row with
  | None => compute_spans df header_row = None
  | Some row =>
      exists spans,
        compute_spans df header_row = Some spans
        /\ (forall label,
              is_Some (spans !! label)
              <-> label ∈ SPAN_LABELS /\ label ∈ map normalize_text row)
        /\ forall label s e,
             spans !! label = Some (s, e) ->
             e < length row
             /\ span_in 0 (map normalize_text row) (length row - 1) label s e
  end.
Proof.
  unfold compute_spans.
  destruct (df !! header_row) as [row|]; [|done]. cbn [mbind option_bind].
  set (cells := map normalize_text row).
  assert (Hlen : length cells = length row) by apply length_map.
  assert (Hspan : forall label s e,
    spans_from (markers_from 0 cells) (length row - 1) ∅ !! label
      = Some (s, e) ->
    e < length row /\ span_in 0 cells (length row - 1) label s e).
  { intros label s e Hl.
    destruct row as [|v row]; [done|].
    apply spans_from_Some in Hl as [[Hl _]|Hs];
      [done| |cbn in *; lia].
    split; [|done].
    destruct Hs as (_ & Hs & _ & _ & _ & _ & [[-> _]|(c & Hc & _)]).
    - cbn. lia.
    - apply lookup_lt_Some in Hc. rewrite Hlen in Hc. lia. }
  assert (Hkeys : forall label,
    is_Some (spans_from (markers_from 0 cells) (length row - 1) ∅ !! label)
    <-> label ∈ SPAN_LABELS /\ label ∈ cells).
  { intros label. split.
    - intros [[s e] Hl]. apply Hspan in Hl as [_ (_ & Hs & Hlab & _)].
      split; [done|]. by apply list_elem_of_lookup_2 in Hs.
    - intros [Hlab Hin]. by apply spans_from_covers. }
  case_bool_decide as Hempty.
  - exists ∅. rewrite Hempty in Hkeys, Hspan. cbn [spans_from] in *.
    split_and!; [done|apply Hkeys|apply Hspan].
  - eexists. split_and!; [done|apply Hkeys|apply Hspan].
Qed.
End SpansProps.

Example compute_spans_run :
  @compute_spans Reference.runtime
    [ [VStr (utf8 "번호"); VStr (utf8 "품 명"); VFloat PrimFloat.nan;
       VStr (utf8 "규격"); VStr (utf8 "비고"); VFloat PrimFloat.nan] ] 0
  = Some (list_to_map
            [ (utf8 "번호", (0, 0)); (utf8 "품명", (1, 2));
              (utf8 "규격", (3, 3)); (utf8 "비고", (4, 5)) ]).
Proof. vm_compute. reflexivity. Qed.
